(** * Fixture corpus of vibecop: [test-fixtures/mypy-issues.py] and
      [test-fixtures/ruff-issues.py]

    The repository holds two Python files that are fed to a type checker and
    to a linter.  This development embeds the text of both files line by
    line, gives the layout of a Python source line (indentation, code,
    comment), extracts the annotated violation examples, embeds the Python
    functions of the fixtures that have an effect when called, and states
    the properties of the corpus over these definitions. *)

From Stdlib Require Import String Ascii List Bool Arith ZArith Lia.
From Stdlib Require Import DecimalString.
From Stdlib Require DecimalPos DecimalZ.
Import ListNotations.
Open Scope string_scope.

(** ** Characters and strings *)

Module Text.

Definition dquote : ascii := ascii_of_nat 34.
Definition squote : ascii := ascii_of_nat 39.
Definition hash : ascii := ascii_of_nat 35.
Definition backslash : ascii := ascii_of_nat 92.
Definition space : ascii := ascii_of_nat 32.
Definition backtick : ascii := ascii_of_nat 96.

(** The fixtures never use the backtick, and they use the double quote a
    lot.  The literals of [Fixtures] below write a backtick wherever the
    file has a double quote; [quoted] puts the double quote back. *)
Definition quoted_char (c : ascii) : ascii :=
  if Ascii.eqb c backtick then dquote else c.

Fixpoint quoted (s : string) : string :=
  match s with
  | EmptyString => EmptyString
  | String c r => String (quoted_char c) (quoted r)
  end.

Definition is_space (c : ascii) : bool := Ascii.eqb c space.

Definition is_quote (c : ascii) : bool :=
  Ascii.eqb c dquote || Ascii.eqb c squote.

Definition is_empty (s : string) : bool :=
  match s with EmptyString => true | _ => false end.

(** Number of leading spaces, and the text after them. *)
Fixpoint leading_spaces (s : string) : nat :=
  match s with
  | String c r => if is_space c then S (leading_spaces r) else 0
  | EmptyString => 0
  end.

Fixpoint lstrip (s : string) : string :=
  match s with
  | String c r => if is_space c then lstrip r else s
  | EmptyString => EmptyString
  end.

Fixpoint rstrip (s : string) : string :=
  match s with
  | EmptyString => EmptyString
  | String c r =>
      let r' := rstrip r in
      if is_space c && is_empty r' then EmptyString else String c r'
  end.

Definition strip (s : string) : string := lstrip (rstrip s).

(** [drop_spaces n s] removes at most [n] leading spaces of [s]. *)
Fixpoint drop_spaces (n : nat) (s : string) : string :=
  match n, s with
  | S n', String c r => if is_space c then drop_spaces n' r else s
  | _, _ => s
  end.

Fixpoint starts_with (p s : string) : bool :=
  match p, s with
  | EmptyString, _ => true
  | String a p', String b s' => Ascii.eqb a b && starts_with p' s'
  | String _ _, EmptyString => false
  end.

Fixpoint contains (sub s : string) : bool :=
  starts_with sub s ||
  match s with
  | EmptyString => false
  | String _ r => contains sub r
  end.

Fixpoint ends_with (p s : string) : bool :=
  String.eqb p s ||
  match s with
  | EmptyString => false
  | String _ r => ends_with p r
  end.

(** [skip n s] is [s] without its first [n] characters. *)
Fixpoint skip (n : nat) (s : string) : string :=
  match n, s with
  | S n', String _ r => skip n' r
  | _, _ => s
  end.

(** [split_once sep s] cuts [s] at the first occurrence of [sep]. *)
Fixpoint split_once (sep s : string) : option (string * string) :=
  if starts_with sep s then Some (EmptyString, skip (String.length sep) s)
  else
    match s with
    | EmptyString => None
    | String c r =>
        match split_once sep r with
        | Some (a, b) => Some (String c a, b)
        | None => None
        end
    end.

Fixpoint count_char (c : ascii) (s : string) : nat :=
  match s with
  | EmptyString => 0
  | String a r => (if Ascii.eqb a c then 1 else 0) + count_char c r
  end.

Definition is_letter (c : ascii) : bool :=
  let n := nat_of_ascii c in
  (Nat.leb 65 n && Nat.leb n 90) || (Nat.leb 97 n && Nat.leb n 122).

Definition is_digit (c : ascii) : bool :=
  let n := nat_of_ascii c in Nat.leb 48 n && Nat.leb n 57.

Definition is_ident_char (c : ascii) : bool :=
  is_letter c || is_digit c || Ascii.eqb c (ascii_of_nat 95).

End Text.

Import Text.

(** ** The text of the two files *)

Module Fixtures.

Definition mypy_issues_lines : list string := map quoted [
  (*   1 *) "# Mypy test file - intentionally dirty code for type checking";
  (*   2 *) "# This file triggers various Mypy type errors";
  (*   3 *) EmptyString;
  (*   4 *) "from typing import List, Dict, Optional, Union, Callable";
  (*   5 *) EmptyString;
  (*   6 *) EmptyString;
  (*   7 *) "# Return type mismatch";
  (*   8 *) "def returns_wrong_type() -> str:";
  (*   9 *) "    return 42  # error: Incompatible return value type (got `int`, expected `str`)";
  (*  10 *) EmptyString;
  (*  11 *) EmptyString;
  (*  12 *) "# Argument type mismatch";
  (*  13 *) "def expects_string(s: str) -> None:";
  (*  14 *) "    print(s)";
  (*  15 *) EmptyString;
  (*  16 *) EmptyString;
  (*  17 *) "def call_with_wrong_type():";
  (*  18 *) "    expects_string(123)  # error: Argument 1 has incompatible type `int`; expected `str`";
  (*  19 *) EmptyString;
  (*  20 *) EmptyString;
  (*  21 *) "# Missing return statement";
  (*  22 *) "def missing_return() -> int:";
  (*  23 *) "    x = 5";
  (*  24 *) "    # error: Missing return statement";
  (*  25 *) EmptyString;
  (*  26 *) EmptyString;
  (*  27 *) "# Incompatible types in assignment";
  (*  28 *) "def incompatible_assignment():";
  (*  29 *) "    x: str = `hello`";
  (*  30 *) "    x = 42  # error: Incompatible types in assignment";
  (*  31 *) EmptyString;
  (*  32 *) EmptyString;
  (*  33 *) "# None handling issues";
  (*  34 *) "def none_issues(x: Optional[str]) -> str:";
  (*  35 *) "    return x.upper()  # error: Item `None` of `Optional[str]` has no attribute `upper`";
  (*  36 *) EmptyString;
  (*  37 *) EmptyString;
  (*  38 *) "# List type issues";
  (*  39 *) "def list_type_issues():";
  (*  40 *) "    items: List[int] = [1, 2, 3]";
  (*  41 *) "    items.append(`four`)  # error: Argument 1 has incompatible type `str`; expected `int`";
  (*  42 *) EmptyString;
  (*  43 *) EmptyString;
  (*  44 *) "# Dict type issues";
  (*  45 *) "def dict_type_issues():";
  (*  46 *) "    data: Dict[str, int] = {`a`: 1}";
  (*  47 *) "    data[`b`] = `two`  # error: Incompatible types in assignment";
  (*  48 *) EmptyString;
  (*  49 *) EmptyString;
  (*  50 *) "# Union type narrowing issues";
  (*  51 *) "def union_issues(x: Union[int, str]) -> int:";
  (*  52 *) "    return x + 1  # error: Unsupported operand types for + (`str` and `int`)";
  (*  53 *) EmptyString;
  (*  54 *) EmptyString;
  (*  55 *) "# Callable type issues";
  (*  56 *) "def callable_issues():";
  (*  57 *) "    func: Callable[[int], str] = lambda x: x * 2  # error: Incompatible return type";
  (*  58 *) EmptyString;
  (*  59 *) EmptyString;
  (*  60 *) "# Attribute access on wrong type";
  (*  61 *) "class MyClass:";
  (*  62 *) "    def __init__(self):";
  (*  63 *) "        self.value: int = 0";
  (*  64 *) EmptyString;
  (*  65 *) EmptyString;
  (*  66 *) "def attribute_issues():";
  (*  67 *) "    obj: MyClass = MyClass()";
  (*  68 *) "    print(obj.nonexistent)  # error: `MyClass` has no attribute `nonexistent`";
  (*  69 *) EmptyString;
  (*  70 *) EmptyString;
  (*  71 *) "# Incompatible override";
  (*  72 *) "class Base:";
  (*  73 *) "    def method(self, x: int) -> str:";
  (*  74 *) "        return str(x)";
  (*  75 *) EmptyString;
  (*  76 *) EmptyString;
  (*  77 *) "class Derived(Base):";
  (*  78 *) "    def method(self, x: str) -> int:  # error: Argument 1 incompatible with supertype";
  (*  79 *) "        return len(x)";
  (*  80 *) EmptyString;
  (*  81 *) EmptyString;
  (*  82 *) "# Generic type issues";
  (*  83 *) "def generic_issues():";
  (*  84 *) "    from typing import TypeVar";
  (*  85 *) EmptyString;
  (*  86 *) "    T = TypeVar('T')";
  (*  87 *) EmptyString;
  (*  88 *) "    def identity(x: T) -> T:";
  (*  89 *) "        return x";
  (*  90 *) EmptyString;
  (*  91 *) "    result: str = identity(42)  # error: Incompatible types in assignment";
  (*  92 *) EmptyString;
  (*  93 *) EmptyString;
  (*  94 *) "# Protocol violations";
  (*  95 *) "from typing import Protocol";
  (*  96 *) EmptyString;
  (*  97 *) EmptyString;
  (*  98 *) "class Drawable(Protocol):";
  (*  99 *) "    def draw(self) -> None: ...";
  (* 100 *) EmptyString;
  (* 101 *) EmptyString;
  (* 102 *) "class Circle:";
  (* 103 *) "    pass  # Missing draw method";
  (* 104 *) EmptyString;
  (* 105 *) EmptyString;
  (* 106 *) "def draw_shape(shape: Drawable) -> None:";
  (* 107 *) "    shape.draw()";
  (* 108 *) EmptyString;
  (* 109 *) EmptyString;
  (* 110 *) "def protocol_violation():";
  (* 111 *) "    c = Circle()";
  (* 112 *) "    draw_shape(c)  # error: Argument 1 has incompatible type `Circle`";
  (* 113 *) EmptyString;
  (* 114 *) EmptyString;
  (* 115 *) "# Literal type issues";
  (* 116 *) "from typing import Literal";
  (* 117 *) EmptyString;
  (* 118 *) EmptyString;
  (* 119 *) "def literal_issues():";
  (* 120 *) "    mode: Literal[`read`, `write`] = `execute`  # error: Incompatible types";
  (* 121 *) EmptyString;
  (* 122 *) EmptyString;
  (* 123 *) "# TypedDict issues";
  (* 124 *) "from typing import TypedDict";
  (* 125 *) EmptyString;
  (* 126 *) EmptyString;
  (* 127 *) "class Person(TypedDict):";
  (* 128 *) "    name: str";
  (* 129 *) "    age: int";
  (* 130 *) EmptyString;
  (* 131 *) EmptyString;
  (* 132 *) "def typeddict_issues():";
  (* 133 *) "    person: Person = {`name`: `Alice`}  # error: Missing key 'age'";
  (* 134 *) "    person[`height`] = 170  # error: TypedDict `Person` has no key 'height'";
  (* 135 *) EmptyString;
  (* 136 *) EmptyString;
  (* 137 *) "# Overload issues";
  (* 138 *) "from typing import overload";
  (* 139 *) EmptyString;
  (* 140 *) EmptyString;
  (* 141 *) "@overload";
  (* 142 *) "def process(x: int) -> int: ...";
  (* 143 *) "@overload";
  (* 144 *) "def process(x: str) -> str: ...";
  (* 145 *) EmptyString;
  (* 146 *) EmptyString;
  (* 147 *) "def process(x):  # error: Missing type annotation";
  (* 148 *) "    return x";
  (* 149 *) EmptyString;
  (* 150 *) EmptyString;
  (* 151 *) "# Variance issues";
  (* 152 *) EmptyString;
  (* 153 *) EmptyString;
  (* 154 *) "def variance_issues():";
  (* 155 *) "    ints: List[int] = [1, 2, 3]";
  (* 156 *) "    objects: List[object] = ints  # error: Incompatible types (invariance)";
  (* 157 *) EmptyString
].

Definition ruff_issues_lines : list string := map quoted [
  (*   1 *) "# Ruff test file - intentionally dirty code for linting";
  (*   2 *) "# This file triggers various Ruff rules";
  (*   3 *) EmptyString;
  (*   4 *) "from collections import *  # F403: Star import";
  (*   5 *) EmptyString;
  (*   6 *) "# E501: Line too long (this comment is intentionally very very very very very very very very very very very very long)";
  (*   7 *) EmptyString;
  (*   8 *) "def badly_formatted_function(x,y,z):  # E251: Missing whitespace around parameter equals";
  (*   9 *) "    ```Missing blank lines, bad spacing.```";
  (*  10 *) "    a=1  # E225: Missing whitespace around operator";
  (*  11 *) "    b =2  # E221: Multiple spaces before operator";
  (*  12 *) "    c= 3  # E222: Missing space after operator";
  (*  13 *) "    if x==1:  # E225: Missing whitespace around comparison";
  (*  14 *) "        pass";
  (*  15 *) "    return a+b+c  # E225: Missing whitespace around operator";
  (*  16 *) EmptyString;
  (*  17 *) EmptyString;
  (*  18 *) "class badlyNamedClass:  # N801: Class name should use CapWords convention";
  (*  19 *) "    def __init__(self):";
  (*  20 *) "        self.BadAttribute = 1  # N815: Mixed case variable in class scope";
  (*  21 *) EmptyString;
  (*  22 *) "    def BadMethodName(self):  # N802: Function name should be lowercase";
  (*  23 *) "        pass";
  (*  24 *) EmptyString;
  (*  25 *) EmptyString;
  (*  26 *) "def unused_variable_function():";
  (*  27 *) "    unused_var = 42  # F841: Local variable is assigned but never used";
  (*  28 *) "    x = 1";
  (*  29 *) "    return x";
  (*  30 *) EmptyString;
  (*  31 *) EmptyString;
  (*  32 *) "def unreachable_code():";
  (*  33 *) "    return 1";
  (*  34 *) "    print(`never reached`)  # F821 style: unreachable code after return";
  (*  35 *) EmptyString;
  (*  36 *) EmptyString;
  (*  37 *) "# E302: Expected 2 blank lines, found 1";
  (*  38 *) "def missing_blank_lines():";
  (*  39 *) "    pass";
  (*  40 *) EmptyString;
  (*  41 *) "CONSTANT = `value`";
  (*  42 *) "constant_lowercase = `bad`  # N816: Variable in module scope should be UPPER_CASE";
  (*  43 *) EmptyString;
  (*  44 *) EmptyString;
  (*  45 *) "# Comparison issues";
  (*  46 *) "def comparison_issues(x):";
  (*  47 *) "    if x == None:  # E711: Comparison to None should be 'is None'";
  (*  48 *) "        pass";
  (*  49 *) "    if x == True:  # E712: Comparison to True should be 'if x:' or 'if x is True:'";
  (*  50 *) "        pass";
  (*  51 *) "    if type(x) == int:  # E721: Use isinstance() instead of type comparison";
  (*  52 *) "        pass";
  (*  53 *) EmptyString;
  (*  54 *) EmptyString;
  (*  55 *) "# f-string issues";
  (*  56 *) "def fstring_issues():";
  (*  57 *) "    name = `world`";
  (*  58 *) "    greeting = `hello`  # F541: f-string without placeholders";
  (*  59 *) "    return greeting";
  (*  60 *) EmptyString;
  (*  61 *) EmptyString;
  (*  62 *) "# Lambda assignment";
  (*  63 *) "square = lambda x: x * x  # E731: Do not assign a lambda expression, use a def";
  (*  64 *) EmptyString;
  (*  65 *) EmptyString;
  (*  66 *) "# Bare except";
  (*  67 *) "def bare_except_handler():";
  (*  68 *) "    try:";
  (*  69 *) "        pass";
  (*  70 *) "    except Exception:";
  (*  71 *) "        pass";
  (*  72 *) EmptyString;
  (*  73 *) EmptyString;
  (*  74 *) "# Mutable default argument";
  (*  75 *) "def mutable_default(items=[]):  # B006: Do not use mutable data structures for argument defaults";
  (*  76 *) "    items.append(1)";
  (*  77 *) "    return items";
  (*  78 *) EmptyString;
  (*  79 *) EmptyString;
  (*  80 *) "# Assert with tuple";
  (*  81 *) "def assert_tuple():";
  (*  82 *) "    assert (1, 2)  # B011: Do not use assert with a tuple, it's always True";
  (*  83 *) EmptyString;
  (*  84 *) EmptyString;
  (*  85 *) "# Duplicate keys in dict";
  (*  86 *) "duplicate_dict = {";
  (*  87 *) "    `key`: 1,";
  (*  88 *) "    `key`: 2,  # Duplicate key";
  (*  89 *) "}"
].

End Fixtures.

(** ** Layout of a Python source line *)

Module Layout.

(** The part of Python's lexer that tells code from string literals and
    from comments.  A literal opens at a quote and closes at the same
    quote; a backslash inside a literal protects the next character.  The
    state does not carry over to the next physical line (no literal of the
    fixtures spans lines; a triple-quoted literal on one line reads as
    three literals in a row, with the same code and comment parts). *)
Inductive LexState : Type :=
| InCode
| InLiteral (q : ascii)
| Escaped (q : ascii).

Definition lex_step (st : LexState) (c : ascii) : LexState :=
  match st with
  | InCode => if is_quote c then InLiteral c else InCode
  | InLiteral q =>
      if Ascii.eqb c q then InCode
      else if Ascii.eqb c backslash then Escaped q
      else InLiteral q
  | Escaped q => InLiteral q
  end.

(** A comment starts at the first [#] that is not inside a literal. *)
Fixpoint split_from (st : LexState) (s : string) : string * option string :=
  match s with
  | EmptyString => (EmptyString, None)
  | String c r =>
      match st, Ascii.eqb c hash with
      | InCode, true => (EmptyString, Some r)
      | _, _ =>
          let (co, cm) := split_from (lex_step st c) r in
          (String c co, cm)
      end
  end.

Definition split_comment (s : string) : string * option string :=
  split_from InCode s.

Record SourceLine : Type := {
  indent : nat;              (* leading spaces of the physical line *)
  code : string;             (* text before the comment, indentation kept *)
  comment : option string    (* text after the [#], stripped *)
}.

Definition parse_line (s : string) : SourceLine :=
  let (co, cm) := split_comment s in
  {| indent := leading_spaces s;
     code := rstrip co;
     comment := option_map strip cm |}.

Definition has_code (l : SourceLine) : bool := negb (is_empty (code l)).

Definition has_comment (l : SourceLine) : bool :=
  match comment l with Some _ => true | None => false end.

Definition is_blank (l : SourceLine) : bool :=
  negb (has_code l) && negb (has_comment l).

Definition comment_only (l : SourceLine) : bool :=
  negb (has_code l) && has_comment l.

(** *** Brackets and logical lines *)

Definition opens (c : ascii) : bool :=
  Ascii.eqb c "(" || Ascii.eqb c "[" || Ascii.eqb c "{".

Definition closes (c : ascii) : bool :=
  Ascii.eqb c ")" || Ascii.eqb c "]" || Ascii.eqb c "}".

Fixpoint depth_from (st : LexState) (d : nat) (s : string) : nat :=
  match s with
  | EmptyString => d
  | String c r =>
      let d' :=
        match st with
        | InCode => if opens c then S d else if closes c then pred d else d
        | _ => d
        end in
      depth_from (lex_step st c) d' r
  end.

(** Bracket depth after a line that starts at depth [d]. *)
Definition depth_after (d : nat) (l : SourceLine) : nat :=
  depth_from InCode d (code l).

(** For every physical line, the number (from [pos]) of the physical line
    on which its logical line starts: inside brackets a statement goes on
    over the line end. *)
Fixpoint logical_starts_from (pos start d : nat) (ls : list SourceLine)
  : list nat :=
  match ls with
  | [] => []
  | l :: r =>
      let start' := if Nat.eqb d 0 then pos else start in
      start' :: logical_starts_from (S pos) start' (depth_after d l) r
  end.

Definition logical_starts (ls : list SourceLine) : list nat :=
  logical_starts_from 1 1 0 ls.

(** The physical lines of the logical line at the head of [ls], and the
    lines after it. *)
Fixpoint take_logical (d : nat) (ls : list SourceLine)
  : list SourceLine * list SourceLine :=
  match ls with
  | [] => ([], [])
  | l :: r =>
      let d' := depth_after d l in
      if Nat.eqb d' 0 then ([l], r)
      else let (a, b) := take_logical d' r in (l :: a, b)
  end.

(** *** Statements *)

(** [else], [elif], [except] and [finally] carry on the compound
    statement whose header has the same indentation. *)
Definition continues_clause (l : SourceLine) : bool :=
  let c := lstrip (code l) in
  starts_with "else" c || starts_with "elif" c ||
  starts_with "except" c || starts_with "finally" c.

(** The lines under a header indented by [ind]: deeper lines, lines
    without code between them, and further clauses of the statement. *)
Fixpoint take_suite (ind : nat) (ls : list SourceLine) : list SourceLine :=
  match ls with
  | [] => []
  | l :: r =>
      if negb (has_code l) || Nat.ltb ind (indent l) ||
         (Nat.eqb (indent l) ind && continues_clause l)
      then l :: take_suite ind r
      else []
  end.

Fixpoint drop_trailing_blank (ls : list SourceLine) : list SourceLine :=
  match ls with
  | [] => []
  | l :: r =>
      match drop_trailing_blank r with
      | [] => if has_code l then [l] else []
      | r' => l :: r'
      end
  end.

Definition blank_line : SourceLine :=
  {| indent := 0; code := EmptyString; comment := None |}.

(** The statement that starts at the head of [ls]: its logical line and,
    when that ends in a colon, its suite. *)
Definition statement_from (ls : list SourceLine) : list SourceLine :=
  let (head, rest) := take_logical 0 ls in
  match head with
  | [] => []
  | first :: _ =>
      if ends_with ":" (code (last head first))
      then head ++ drop_trailing_blank (take_suite (indent first) rest)
      else head
  end.

(** Physical line (from 1) on which the logical line of line [i] starts. *)
Definition statement_start (ls : list SourceLine) (i : nat) : nat :=
  nth (i - 1) (logical_starts ls) i.

(** The smallest statement that holds line [i] (from 1). *)
Definition statement_at (ls : list SourceLine) (i : nat) : list SourceLine :=
  statement_from (skipn (statement_start ls i - 1) ls).

(** The code of a statement, comments cut off, shifted left by the
    indentation of its first line. *)
Definition statement_text (st : list SourceLine) : list string :=
  match st with
  | [] => []
  | first :: _ => map (fun l => drop_spaces (indent first) (code l)) st
  end.

(** Headers of the compound statements around a line indented by [bound]:
    going up from it, each line with code that is indented less than
    everything met so far.  [before] is the text above, nearest first. *)
Fixpoint ancestors (bound : nat) (before : list SourceLine)
  : list SourceLine :=
  match before with
  | [] => []
  | l :: r =>
      if has_code l && Nat.ltb (indent l) bound
      then l :: ancestors (indent l) r
      else ancestors bound r
  end.

(** Enclosing headers of line [i], outermost first. *)
Definition enclosing_at (ls : list SourceLine) (i : nat) : list string :=
  let s := statement_start ls i in
  let bound := indent (nth (s - 1) ls blank_line) in
  map (fun l => lstrip (code l)) (rev (ancestors bound (rev (firstn (s - 1) ls)))).

(** *** String literals and their prefixes *)

(** The prefix of each string literal of a piece of code: the run of
    identifier characters that touches the opening quote. *)
Fixpoint literal_prefixes_from (st : LexState) (word s : string)
  : list string :=
  match s with
  | EmptyString => []
  | String c r =>
      match st with
      | InCode =>
          if is_quote c
          then word :: literal_prefixes_from (InLiteral c) EmptyString r
          else literal_prefixes_from InCode
                 (if is_ident_char c then word ++ String c EmptyString
                  else EmptyString) r
      | _ => literal_prefixes_from (lex_step st c) EmptyString r
      end
  end.

Definition literal_prefixes (s : string) : list string :=
  literal_prefixes_from InCode EmptyString s.

(** A literal is an f-string when its prefix has an [f], in either case. *)
Definition is_fstring_prefix (p : string) : bool :=
  contains "f" p || contains "F" p.

Definition has_fstring (s : string) : bool :=
  existsb is_fstring_prefix (literal_prefixes s).

End Layout.

Import Layout.

(** ** The corpus: fixture files, annotations, examples *)

Module Corpus.

Record FixtureFile : Type := {
  path : string;
  text : list string;        (* the physical lines, without line ends *)
  newline_at_end : bool      (* whether the last line ends in a newline *)
}.

Definition mypy_issues : FixtureFile :=
  {| path := "test-fixtures/mypy-issues.py";
     text := Fixtures.mypy_issues_lines;
     newline_at_end := true |}.

Definition ruff_issues : FixtureFile :=
  {| path := "test-fixtures/ruff-issues.py";
     text := Fixtures.ruff_issues_lines;
     newline_at_end := false |}.

(** The files of the directory [test-fixtures]. *)
Definition corpus : list FixtureFile := [mypy_issues; ruff_issues].

Definition source_lines (f : FixtureFile) : list SourceLine :=
  map parse_line (text f).

Definition line_count (f : FixtureFile) : nat := List.length (text f).

(** Number of newline characters of the file, as [wc -l] counts lines. *)
Definition newline_count (f : FixtureFile) : nat :=
  if newline_at_end f then line_count f else pred (line_count f).

(** Number of characters of the file, line ends counted. *)
Definition char_count (f : FixtureFile) : nat :=
  list_sum (map String.length (text f)) + newline_count f.

Definition count_in_file (c : ascii) (f : FixtureFile) : nat :=
  list_sum (map (count_char c) (text f)).

Definition total_lines (c : list FixtureFile) : nat :=
  list_sum (map line_count c).

Definition total_newlines (c : list FixtureFile) : nat :=
  list_sum (map newline_count c).

(** *** The tool a file is written for *)

Inductive Tool : Type := TypeChecker | Linter.

Definition tool_name (t : Tool) : string :=
  match t with
  | TypeChecker => "type-checker"
  | Linter => "linter"
  end.

Definition tool_eqb (a b : Tool) : bool :=
  match a, b with
  | TypeChecker, TypeChecker | Linter, Linter => true
  | _, _ => false
  end.

(** The first line of a fixture says what the file is for:
    [# <Tool> test file - intentionally dirty code for <purpose>]. *)
Definition declared_purpose (f : FixtureFile) : option string :=
  match text f with
  | [] => None
  | l :: _ =>
      match split_once " test file - intentionally dirty code for " l with
      | Some (_, p) => Some p
      | None => None
      end
  end.

Definition tool_of (f : FixtureFile) : option Tool :=
  match declared_purpose f with
  | Some p =>
      if String.eqb p "type checking" then Some TypeChecker
      else if String.eqb p "linting" then Some Linter
      else None
  | None => None
  end.

Definition is_for (t : Tool) (f : FixtureFile) : bool :=
  match tool_of f with
  | Some t' => tool_eqb t t'
  | None => false
  end.

(** The corpus as a mapping: the files written for a tool. *)
Definition fixtures_for (t : Tool) : list FixtureFile :=
  filter (is_for t) corpus.

Definition fixtures_named (n : string) : list FixtureFile :=
  filter (fun f => match tool_of f with
                   | Some t => String.eqb (tool_name t) n
                   | None => false
                   end) corpus.

(** *** Annotations *)

(** An inline comment reads [<kind>: <message>]: the kind is [error] in
    the type checker's file and a rule code in the linter's. *)
Record Annotation : Type := {
  kind : option string;
  message : string
}.

Definition parse_annotation (c : string) : Annotation :=
  match split_once ": " c with
  | Some (k, m) => {| kind := Some k; message := m |}
  | None => {| kind := None; message := c |}
  end.

Definition has_kind (k : string) (a : Annotation) : bool :=
  match kind a with
  | Some k' => String.eqb k k'
  | None => false
  end.

(** *** Violation examples *)

Record ViolationExample : Type := {
  line : nat;                 (* physical line of the comment, from 1 *)
  enclosing : list string;    (* headers around the statement *)
  snippet : list string;      (* the statement the comment is attached to *)
  annotation : Annotation
}.

Definition example_at (ls : list SourceLine) (i : nat) (l : SourceLine)
  : list ViolationExample :=
  match comment l with
  | Some c =>
      if has_code l
      then [ {| line := i;
                enclosing := enclosing_at ls i;
                snippet := statement_text (statement_at ls i);
                annotation := parse_annotation c |} ]
      else []
  | None => []
  end.

Fixpoint examples_from (ls : list SourceLine) (i : nat)
  (rest : list SourceLine) : list ViolationExample :=
  match rest with
  | [] => []
  | l :: r => example_at ls i l ++ examples_from ls (S i) r
  end.

(** One example for every line that has code and a comment. *)
Definition violation_examples (f : FixtureFile) : list ViolationExample :=
  let ls := source_lines f in examples_from ls 1 ls.

(** *** Headed blocks *)

(** From line 7 of the type checker's file and line 6 of the linter's, the
    examples stand under headings: a comment in column 0, alone on its
    line, after a blank line.  A block runs from its heading to the next. *)
Record HeadedBlock : Type := {
  heading : string;
  heading_line : nat;
  body : list SourceLine
}.

Definition is_heading (prev cur : SourceLine) : bool :=
  is_blank prev && comment_only cur && Nat.eqb (indent cur) 0.

Definition close_block (cur : option HeadedBlock) : list HeadedBlock :=
  match cur with
  | Some b => [b]
  | None => []
  end.

Definition extend_block (l : SourceLine) (b : HeadedBlock) : HeadedBlock :=
  {| heading := heading b;
     heading_line := heading_line b;
     body := body b ++ [l] |}.

Definition heading_text (l : SourceLine) : string :=
  match comment l with
  | Some c => c
  | None => EmptyString
  end.

Fixpoint blocks_from (pos : nat) (prev : SourceLine)
  (cur : option HeadedBlock) (ls : list SourceLine) : list HeadedBlock :=
  match ls with
  | [] => close_block cur
  | l :: r =>
      if is_heading prev l
      then close_block cur ++
           blocks_from (S pos) l
             (Some {| heading := heading_text l;
                      heading_line := pos;
                      body := [] |}) r
      else blocks_from (S pos) l (option_map (extend_block l) cur) r
  end.

(** The first line of a file has no line before it and is no heading. *)
Definition start_of_file : SourceLine :=
  {| indent := 0; code := "#!"; comment := None |}.

Definition headed_blocks (f : FixtureFile) : list HeadedBlock :=
  blocks_from 1 start_of_file None (source_lines f).

(** A block records a diagnostic when one of the lines under its heading
    carries a comment; the comment is inline when the line has code too. *)
Definition block_has_comment (b : HeadedBlock) : bool :=
  existsb has_comment (body b).

Definition block_has_inline_comment (b : HeadedBlock) : bool :=
  existsb (fun l => has_code l && has_comment l) (body b).

Definition block_has_code (b : HeadedBlock) : bool :=
  existsb has_code (body b).

Definition uncommented_blocks (f : FixtureFile) : list HeadedBlock :=
  filter (fun b => negb (block_has_comment b)) (headed_blocks f).

(** *** Dictionary displays *)

(** The key of an entry line [<literal>: <value>,] of a dictionary display
    written one entry a line. *)
Definition entry_key (l : string) : option string :=
  match lstrip l with
  | String q r =>
      if is_quote q
      then match split_once (String q ": ") r with
           | Some (k, _) => Some k
           | None => None
           end
      else None
  | EmptyString => None
  end.

(** The keys of a statement [<name> = {], entries, [}]. *)
Definition dict_display_keys (st : list string) : option (list string) :=
  match st with
  | first :: rest =>
      if ends_with " = {" first && String.eqb (last rest EmptyString) "}"
      then Some (flat_map (fun l => match entry_key l with
                                    | Some k => [k]
                                    | None => []
                                    end) (removelast rest))
      else None
  | [] => None
  end.

End Corpus.

Import Corpus.

(** ** Imports and calls, read off the text *)

Module Usage.

(** First word of [s]: its identifier characters up to the first other
    character. *)
Fixpoint first_word (s : string) : string :=
  match s with
  | String c r => if is_ident_char c then String c (first_word r) else EmptyString
  | EmptyString => EmptyString
  end.

(** The module named by a line [from <module> import ...] or
    [import <module>]. *)
Definition imported_module (l : SourceLine) : option string :=
  let c := lstrip (code l) in
  if starts_with "from " c then Some (first_word (skip 5 c))
  else if starts_with "import " c then Some (first_word (skip 7 c))
  else None.

Definition imported_modules (f : FixtureFile) : list string :=
  flat_map (fun l => match imported_module l with
                     | Some m => [m]
                     | None => []
                     end) (source_lines f).

Fixpoint numbered_from {A : Type} (i : nat) (l : list A) : list (nat * A) :=
  match l with
  | [] => []
  | x :: r => (i, x) :: numbered_from (S i) r
  end.

(** Lines (from 1) whose code calls [name]. *)
Definition lines_calling (name : string) (f : FixtureFile) : list nat :=
  map fst (filter (fun p => contains (name ++ "(") (code (snd p)))
             (numbered_from 1 (source_lines f))).

(** A line stands inside a function body when its outermost enclosing
    header is a [def]. *)
Definition inside_def (f : FixtureFile) (i : nat) : bool :=
  match enclosing_at (source_lines f) i with
  | h :: _ => starts_with "def " h
  | [] => false
  end.

End Usage.

Import Usage.

(** ** The functions of the fixtures that act when called *)

Module Runtime.

(** The arguments the model covers: values of type NoneType, int or str
    (these very types, no subclass).  Calls with any other object (a
    bool, a float, bytes, an instance with methods of its own) are
    outside it, and every statement below is about these three types
    only. *)
Inductive Value : Type :=
| VNone
| VInt (n : Z)
| VStr (s : string).

(** What a running snippet can touch: the text written to standard
    output, and the list object that [mutable_default] holds as the
    default of [items], made once when the [def] is executed. *)
Record World : Type := {
  stdout : list string;
  default_items : list Value
}.

Definition initial : World := {| stdout := []; default_items := [] |}.

Inductive Outcome (R : Type) : Type :=
| Next                    (* go on with the next statement *)
| Return (r : R)
| Raise (e : string).

Arguments Next {R}.
Arguments Return {R} r.
Arguments Raise {R} e.

Definition Stmt (R : Type) : Type := World -> Outcome R * World.

Definition seq {R : Type} (a b : Stmt R) : Stmt R :=
  fun w =>
    match a w with
    | (Next, w') => b w'
    | (o, w') => (o, w')
    end.

Notation "a ;; b" := (seq a b) (at level 61, right associativity).

Inductive Result (R : Type) : Type :=
| Ok (r : R)
| Error (e : string).

Arguments Ok {R} r.
Arguments Error {R} e.

Definition Call (R : Type) : Type := World -> Result R * World.

(** A call runs the body; a body that falls off its end returns [none]. *)
Definition call {R : Type} (none : R) (body : Stmt R) : Call R :=
  fun w =>
    match body w with
    | (Next, w') => (Ok none, w')
    | (Return r, w') => (Ok r, w')
    | (Raise e, w') => (Error e, w')
    end.

(** An expression statement: the value is dropped, an exception goes on. *)
Definition expr_stmt {R A : Type} (c : Call A) : Stmt R :=
  fun w =>
    match c w with
    | (Ok _, w') => (Next, w')
    | (Error e, w') => (Raise e, w')
    end.

Definition return_ {R : Type} (r : R) : Stmt R := fun w => (Return r, w).

Definition newline : string := String (ascii_of_nat 10) EmptyString.

(** Decimal text of an int, with a [-] in front when it is negative. *)
Definition decimal (n : Z) : string := NilZero.string_of_int (Z.to_int n).

Definition digit_count (n : Z) : nat := String.length (decimal (Z.abs n)).

(** [str] of an int of more than 4300 digits raises ValueError (the
    default of [sys.int_max_str_digits]). *)
Definition int_max_str_digits : nat := 4300.

Definition fits_str (n : Z) : bool := Nat.leb (digit_count n) int_max_str_digits.

Definition py_str (v : Value) : Result string :=
  match v with
  | VNone => Ok "None"
  | VInt n =>
      if fits_str n then Ok (decimal n)
      else Error "ValueError: Exceeds the limit (4300 digits) for integer string conversion; use sys.set_int_max_str_digits() to increase the limit"
  | VStr s => Ok s
  end.

(** The world after the line [s] has been written. *)
Definition wrote (s : string) (w : World) : World :=
  {| stdout := stdout w ++ [s ++ newline];
     default_items := default_items w |}.

(** [print(v)] writes [str(v)] and a newline; when [str(v)] raises,
    nothing is written.  [stdout] has one entry for each line written.
    Standard output is taken to accept what is written to it, which
    holds of every output for a line of ASCII characters; the statements
    about [print] are made for such lines. *)
Definition print {R : Type} (v : Value) : Stmt R :=
  fun w =>
    match py_str v with
    | Ok s => (Next, wrote s w)
    | Error e => (Raise e, w)
    end.

(** mypy-issues.py, lines 13 and 14. *)
Definition expects_string (s : Value) : Call Value :=
  call VNone (print s).

(** mypy-issues.py, lines 17 and 18. *)
Definition call_with_wrong_type : Call Value :=
  call VNone (expr_stmt (expects_string (VInt 123))).

(** mypy-issues.py, lines 61 to 63: an object of [MyClass] has the one
    attribute [value], set to 0 by [__init__]. *)
Definition MyClass_getattr (name : string) : Result Value :=
  if String.eqb name "value" then Ok (VInt 0)
  else Error ("AttributeError: 'MyClass' object has no attribute '" ++ name ++ "'").

(** mypy-issues.py, lines 66 to 68: the argument of [print] is evaluated
    first. *)
Definition attribute_issues : Call Value :=
  call VNone
    (match MyClass_getattr "nonexistent" with
     | Ok v => print v
     | Error e => fun w => (Raise e, w)
     end).

(** ruff-issues.py, lines 32 to 34. *)
Definition unreachable_code : Call Value :=
  call VNone (return_ (VInt 1) ;; print (VStr "never reached")).

(** ruff-issues.py, lines 75 to 77, called with no argument: [items] is
    the default list object, [append] changes it in place, and the call
    returns that object (here: what it holds at the return). *)
Definition append_default {R : Type} (v : Value) : Stmt R :=
  fun w =>
    (Next, {| stdout := stdout w;
              default_items := default_items w ++ [v] |}).

Definition mutable_default : Call (list Value) :=
  call []
    (append_default (VInt 1) ;;
     fun w => (Return (default_items w), w)).

(** A call has no effect when it leaves the world as it found it. *)
Definition effect_free {R : Type} (c : Call R) : Prop :=
  forall w, snd (c w) = w.

(** The snippets have no side effect and no I/O: no function of the two
    files that is embedded here acts on the world. *)
Definition snippets_effect_free : Prop :=
  (forall s, effect_free (expects_string s)) /\
  effect_free call_with_wrong_type /\
  effect_free attribute_issues /\
  effect_free unreachable_code /\
  effect_free mutable_default.

End Runtime.

Import Runtime.

(** ** Built-in operations the snippets use *)

Module Builtins.

Definition type_name (v : Value) : string :=
  match v with
  | VNone => "NoneType"
  | VInt _ => "int"
  | VStr _ => "str"
  end.

(** A result raises the exception class [cls] when it is an error whose
    text starts with the name of the class. *)
Definition raises {A : Type} (cls : string) (r : Result A) : Prop :=
  exists msg, r = Error (cls ++ ": " ++ msg).

Definition no_attribute (v : Value) (name : string) : string :=
  "AttributeError: '" ++ type_name v ++ "' object has no attribute '" ++ name ++ "'".

Definition unsupported (op : string) (x y : Value) : string :=
  "TypeError: unsupported operand type(s) for " ++ op ++ ": '" ++
  type_name x ++ "' and '" ++ type_name y ++ "'".

(** [x + y]: sum of ints, concatenation of strs. *)
Definition py_add (x y : Value) : Result Value :=
  match x, y with
  | VInt a, VInt b => Ok (VInt (a + b))
  | VStr a, VStr b => Ok (VStr (a ++ b))
  | VStr _, _ =>
      Error ("TypeError: can only concatenate str (not " ++ String dquote (type_name y)
             ++ String dquote ") to str")
  | _, _ => Error (unsupported "+" x y)
  end.

Fixpoint repeat_string (s : string) (n : nat) : string :=
  match n with
  | O => EmptyString
  | S n' => s ++ repeat_string s n'
  end.

(** [x * y]: product of ints, repetition of a str by an int. *)
Definition py_mul (x y : Value) : Result Value :=
  match x, y with
  | VInt a, VInt b => Ok (VInt (a * b))
  | VStr s, VInt n | VInt n, VStr s => Ok (VStr (repeat_string s (Z.to_nat n)))
  | VStr _, _ =>
      Error ("TypeError: can't multiply sequence by non-int of type '" ++ type_name y ++ "'")
  | VNone, VStr _ =>
      Error ("TypeError: can't multiply sequence by non-int of type '" ++ type_name x ++ "'")
  | _, _ => Error (unsupported "*" x y)
  end.

(** [x == y] between None, ints and strs. *)
Definition py_eq (x y : Value) : bool :=
  match x, y with
  | VNone, VNone => true
  | VInt a, VInt b => Z.eqb a b
  | VStr a, VStr b => String.eqb a b
  | _, _ => false
  end.

Definition ascii_only (s : string) : bool :=
  forallb (fun c => Nat.ltb (nat_of_ascii c) 128) (list_ascii_of_string s).

Definition upper_char (c : ascii) : ascii :=
  let n := nat_of_ascii c in
  if Nat.leb 97 n && Nat.leb n 122 then ascii_of_nat (n - 32) else c.

(** [s.upper()] for a str of ASCII characters: the letters [a] to [z]
    become [A] to [Z].  On other text [upper] follows Unicode, which this
    function does not; what is stated with it is stated for ASCII text. *)
Fixpoint py_upper (s : string) : string :=
  match s with
  | EmptyString => EmptyString
  | String c r => String (upper_char c) (py_upper r)
  end.

(** [x.upper()]. *)
Definition method_upper (x : Value) : Result Value :=
  match x with
  | VStr s => Ok (VStr (py_upper s))
  | _ => Error (no_attribute x "upper")
  end.

(** [len(x)]: the number of characters, which for a str of ASCII
    characters is the length of the string here. *)
Definition py_len (x : Value) : Result Value :=
  match x with
  | VStr s => Ok (VInt (Z.of_nat (String.length s)))
  | _ => Error ("TypeError: object of type '" ++ type_name x ++ "' has no len()")
  end.

(** Whether a value is of the type an annotation names. *)
Definition annotation_accepts (ann : string) (v : Value) : bool :=
  match v with
  | VNone => String.eqb ann "None"
  | VInt _ => String.eqb ann "int"
  | VStr _ => String.eqb ann "str"
  end.

(** A result keeps an annotation when it is an exception or a value of the
    annotated type. *)
Definition returns_as (ann : string) (r : Result Value) : Prop :=
  match r with
  | Ok v => annotation_accepts ann v = true
  | Error _ => True
  end.

Definition is_lower (c : ascii) : bool :=
  let n := nat_of_ascii c in Nat.leb 97 n && Nat.leb n 122.

Definition has_lower (s : string) : bool :=
  existsb is_lower (list_ascii_of_string s).

End Builtins.

Import Builtins.

(** ** The other functions of the two files *)

Module Snippets.

Definition pass_ {R : Type} : Stmt R := fun w => (Next, w).

Definition raise_ {R : Type} (e : string) : Stmt R := fun w => (Raise e, w).

(** Evaluate an expression, then go on with its value; an exception of the
    expression ends the statement. *)
Definition eval {R : Type} (e : Result Value) (k : Value -> Stmt R) : Stmt R :=
  match e with
  | Ok v => k v
  | Error m => raise_ m
  end.

Definition assert_ {R : Type} (b : bool) : Stmt R :=
  if b then pass_ else raise_ "AssertionError".

(** *** mypy-issues.py *)

(** Lines 8 and 9. *)
Definition returns_wrong_type : Call Value :=
  call VNone (return_ (VInt 42)).

(** Lines 22 to 24. *)
Definition missing_return : Call Value :=
  call VNone (let x := VInt 5 in pass_).

(** Lines 34 and 35. *)
Definition none_issues (x : Value) : Call Value :=
  call VNone (eval (method_upper x) return_).

(** Lines 51 and 52. *)
Definition union_issues (x : Value) : Call Value :=
  call VNone (eval (py_add x (VInt 1)) return_).

(** Lines 73 and 74: [Base.method]. *)
Definition Base_method (x : Value) : Call Value :=
  call VNone
    (match py_str x with
     | Ok s => return_ (VStr s)
     | Error e => raise_ e
     end).

(** Lines 78 and 79: [Derived.method]. *)
Definition Derived_method (x : Value) : Call Value :=
  call VNone (eval (py_len x) return_).

(** An object of a class of the file: the name of its class and the
    methods the class defines. *)
Record Instance : Type := {
  class_name : string;
  methods : list (string * Call Value)
}.

Fixpoint find_method (name : string) (ms : list (string * Call Value))
  : option (Call Value) :=
  match ms with
  | [] => None
  | (n, m) :: r => if String.eqb n name then Some m else find_method name r
  end.

Definition has_method (name : string) (o : Instance) : bool :=
  match find_method name (methods o) with
  | Some _ => true
  | None => false
  end.

(** Lines 102 and 103: the body of [Circle] is [pass]. *)
Definition Circle : Instance := {| class_name := "Circle"; methods := [] |}.

(** Lines 106 and 107: [shape.draw()] looks the method up, calls it and
    drops what it returns. *)
Definition draw_shape (shape : Instance) : Call Value :=
  call VNone
    (match find_method "draw" (methods shape) with
     | Some m => expr_stmt m
     | None =>
         raise_ ("AttributeError: '" ++ class_name shape
                 ++ "' object has no attribute 'draw'")
     end).

(** Lines 110 to 112. *)
Definition protocol_violation : Call Value :=
  call VNone (let c := Circle in expr_stmt (draw_shape c)).

(** Lines 147 and 148. *)
Definition process (x : Value) : Call Value :=
  call VNone (return_ x).

(** *** ruff-issues.py *)

(** Lines 8 to 15. *)
Definition badly_formatted_function (x y z : Value) : Call Value :=
  call VNone
    (let a := VInt 1 in
     let b := VInt 2 in
     let c := VInt 3 in
     (if py_eq x (VInt 1) then pass_ else pass_) ;;
     eval (py_add a b) (fun ab => eval (py_add ab c) return_)).

(** Lines 26 to 29. *)
Definition unused_variable_function : Call Value :=
  call VNone
    (let unused_var := VInt 42 in
     let x := VInt 1 in
     return_ x).

(** Lines 46 to 52.  [True] equals the int 1 and no other of the values
    None, ints and strs; [type(x) == int] compares the type of [x]. *)
Definition comparison_issues (x : Value) : Call Value :=
  call VNone
    ((if py_eq x VNone then pass_ else pass_) ;;
     (if py_eq x (VInt 1) then pass_ else pass_) ;;
     (if String.eqb (type_name x) "int" then pass_ else pass_)).

(** Lines 56 to 59. *)
Definition fstring_issues : Call Value :=
  call VNone
    (let name := VStr "world" in
     let greeting := VStr "hello" in
     return_ greeting).

(** Line 63: [square = lambda x: x * x]. *)
Definition square (x : Value) : Call Value :=
  call VNone (eval (py_mul x x) return_).

(** Lines 81 and 82: a tuple is true when it is not empty. *)
Definition tuple_truth (t : list Value) : bool :=
  match t with
  | [] => false
  | _ :: _ => true
  end.

Definition assert_pair (a b : Value) : Call Value :=
  call VNone (assert_ (tuple_truth [a; b])).

Definition assert_tuple : Call Value := assert_pair (VInt 1) (VInt 2).

(** *** Dictionaries: lines 86 to 89 of ruff-issues.py *)

(** A dictionary keeps its keys in the order of their first insertion; an
    assignment to a key that is there replaces the value in place. *)
Definition Dict : Type := list (string * Value).

Fixpoint dict_set (k : string) (v : Value) (d : Dict) : Dict :=
  match d with
  | [] => [(k, v)]
  | (k', v') :: r =>
      if String.eqb k' k then (k', v) :: r else (k', v') :: dict_set k v r
  end.

Fixpoint dict_get (k : string) (d : Dict) : option Value :=
  match d with
  | [] => None
  | (k', v') :: r => if String.eqb k' k then Some v' else dict_get k r
  end.

(** A display [{k1: v1, k2: v2, ...}] inserts its entries from left to
    right into an empty dictionary. *)
Definition dict_display (entries : list (string * Value)) : Dict :=
  fold_left (fun d e => dict_set (fst e) (snd e) d) entries [].

Definition duplicate_dict_entries : list (string * Value) :=
  [("key", VInt 1); ("key", VInt 2)].

Definition duplicate_dict : Dict := dict_display duplicate_dict_entries.

(** The value of the last entry of a display that has the key [k]. *)
Fixpoint last_entry (k : string) (entries : list (string * Value))
  : option Value :=
  match entries with
  | [] => None
  | (k', v) :: r =>
      match last_entry k r with
      | Some v' => Some v'
      | None => if String.eqb k' k then Some v else None
      end
  end.

(** Whether [str(v)] gives a text, and the text. *)
Definition printable (v : Value) : bool :=
  match py_str v with
  | Ok _ => true
  | Error _ => false
  end.

Definition text_of (v : Value) : string :=
  match py_str v with
  | Ok s => s
  | Error _ => EmptyString
  end.

(** The values [print] is stated for: those that [str] accepts, a str
    being of ASCII characters. *)
Definition plain (v : Value) : bool :=
  printable v &&
  match v with
  | VStr s => ascii_only s
  | _ => true
  end.

(** The line that [print(v)] writes. *)
Definition line_of (v : Value) : string := text_of v ++ newline.

(** Running a call [n] times in a row; the results of the calls in order. *)
Fixpoint run_times {R : Type} (n : nat) (c : Call R) (w : World)
  : list (Result R) * World :=
  match n with
  | O => ([], w)
  | S n' =>
      let (r, w1) := c w in
      let (rs, w2) := run_times n' c w1 in
      (r :: rs, w2)
  end.

(** Calling [f] on each argument of a list in turn. *)
Fixpoint run_each {A R : Type} (f : A -> Call R) (args : list A) (w : World)
  : list (Result R) * World :=
  match args with
  | [] => ([], w)
  | a :: r =>
      let (x, w1) := f a w in
      let (xs, w2) := run_each f r w1 in
      (x :: xs, w2)
  end.

End Snippets.

Import Snippets.

(** ** List objects: [mutable_default] with an argument *)

Module Heap.

(** The list objects that exist, by address.  A call of
    [mutable_default] gets the address of a list, or a value that is no
    list, or nothing; in the last case [items] is the default object, made
    once and kept at [dflt]. *)
Definition Store : Type := list (list Value).

Inductive Arg : Type :=
| Scalar (v : Value)
| ListAt (a : nat).

Fixpoint store_set (a : nat) (l : list Value) (h : Store) : Store :=
  match h, a with
  | [], _ => []
  | _ :: r, O => l :: r
  | x :: r, S a' => x :: store_set a' l r
  end.

(** [items.append(v)] on the list at [a]. *)
Definition append_at (a : nat) (v : Value) (h : Store) : option Store :=
  match nth_error h a with
  | Some l => Some (store_set a (l ++ [v]) h)
  | None => None
  end.

(** ruff-issues.py, lines 75 to 77.  The call returns the object it was
    given.  An address without object does not occur in a running
    program; the model answers it with an error and leaves the store. *)
Definition mutable_default_on (dflt : nat) (items : option Arg) (h : Store)
  : Result Arg * Store :=
  match (match items with Some x => x | None => ListAt dflt end) with
  | Scalar v => (Error (no_attribute v "append"), h)
  | ListAt a =>
      match append_at a (VInt 1) h with
      | Some h' => (Ok (ListAt a), h')
      | None => (Error "no object at this address", h)
      end
  end.

End Heap.

Import Heap.

(** ** Measures of the text *)

Module Checks.

Definition tab : ascii := ascii_of_nat 9.

(** The lines longer than [limit], with their lengths. *)
Definition long_lines (limit : nat) (f : FixtureFile) : list (nat * nat) :=
  filter (fun p => Nat.ltb limit (snd p))
         (numbered_from 1 (map String.length (text f))).

Definition tidy_line (s : string) : bool :=
  String.eqb (rstrip s) s && Nat.eqb (count_char tab s) 0 &&
  Nat.eqb (Nat.modulo (leading_spaces s) 4) 0.

(** Lines that end in a space, hold a tab, or are not indented by a
    multiple of four. *)
Definition untidy_lines (f : FixtureFile) : list nat :=
  map fst (filter (fun p => negb (tidy_line (snd p))) (numbered_from 1 (text f))).

(** Bracket depth at the end of the file. *)
Definition final_depth (f : FixtureFile) : nat :=
  fold_left depth_after (source_lines f) 0.

(** Lines at whose end a bracket is still open. *)
Fixpoint open_lines_from (i d : nat) (ls : list SourceLine) : list nat :=
  match ls with
  | [] => []
  | l :: r =>
      let d' := depth_after d l in
      (if Nat.eqb d' 0 then [] else [i]) ++ open_lines_from (S i) d' r
  end.

Definition open_lines (f : FixtureFile) : list nat :=
  open_lines_from 1 0 (source_lines f).

Definition is_capital (c : ascii) : bool :=
  let n := nat_of_ascii c in Nat.leb 65 n && Nat.leb n 90.

(** A rule code of the linter: a capital letter and three digits. *)
Definition is_rule_code (k : string) : bool :=
  match list_ascii_of_string k with
  | [a; b; c; d] => is_capital a && is_digit b && is_digit c && is_digit d
  | _ => false
  end.

(** The examples whose kind is not accepted by [ok], with the kind. *)
Definition odd_kinds (ok : string -> bool) (f : FixtureFile)
  : list (nat * option string) :=
  map (fun e => (line e, kind (annotation e)))
      (filter (fun e => match kind (annotation e) with
                        | Some k => negb (ok k)
                        | None => true
                        end) (violation_examples f)).

(** Spaces just before and just after the first [=] of a piece of code
    that is not in a literal. *)
Fixpoint equals_spacing_from (st : LexState) (before : nat) (s : string)
  : option (nat * nat) :=
  match s with
  | EmptyString => None
  | String c r =>
      match st with
      | InCode =>
          if Ascii.eqb c "="
          then Some (before, leading_spaces r)
          else equals_spacing_from (lex_step st c)
                 (if is_space c then S before else 0) r
      | _ => equals_spacing_from (lex_step st c) 0 r
      end
  end.

Definition equals_spacing (s : string) : option (nat * nat) :=
  equals_spacing_from InCode 0 s.

Definition code_at (f : FixtureFile) (i : nat) : string :=
  code (nth (i - 1) (source_lines f) blank_line).

(** The identifiers and numbers of a piece of code, literals left out. *)
Fixpoint words_from (st : LexState) (word s : string) : list string :=
  let flush := if is_empty word then [] else [word] in
  match s with
  | EmptyString => flush
  | String c r =>
      match st with
      | InCode =>
          if is_ident_char c
          then words_from InCode (word ++ String c EmptyString) r
          else flush ++ words_from (lex_step st c) EmptyString r
      | _ => words_from (lex_step st c) EmptyString r
      end
  end.

Definition words (s : string) : list string := words_from InCode EmptyString s.

(** How often a name stands in the code of a file. *)
Definition occurrences (name : string) (f : FixtureFile) : nat :=
  list_sum (map (fun l => count_occ string_dec (words (code l)) name)
                (source_lines f)).

(** The name a line assigns to, when the line is [<name> = ...]. *)
Definition assigned_name (l : SourceLine) : option string :=
  let c := lstrip (code l) in
  let w := first_word c in
  let rest := lstrip (skip (String.length w) c) in
  if negb (is_empty w) && starts_with "=" rest && negb (starts_with "==" rest)
  then Some w else None.

(** Names assigned inside a function or class that stand nowhere else in
    the file, with the line of the assignment. *)
Definition unused_locals (f : FixtureFile) : list (nat * string) :=
  flat_map (fun p =>
              match assigned_name (snd p) with
              | Some w =>
                  if Nat.ltb 0 (indent (snd p)) && Nat.eqb (occurrences w f) 1
                  then [(fst p, w)] else []
              | None => []
              end) (numbered_from 1 (source_lines f)).

(** The return annotation of a header [def f(...) -> <type>:]. *)
Definition declared_return (header : string) : option string :=
  match split_once "-> " header with
  | Some (_, r) =>
      match split_once ":" r with
      | Some (t, _) => Some t
      | None => None
      end
  | None => None
  end.

(** The return annotations of the headers [def <name>(] of a file. *)
Definition declared_returns_of (name : string) (f : FixtureFile)
  : list (option string) :=
  flat_map (fun l =>
              let c := lstrip (code l) in
              if starts_with ("def " ++ name ++ "(") c
              then [declared_return c] else [])
           (source_lines f).

End Checks.

Import Checks.

(** * Properties *)

(** ** The layout functions *)

Module LayoutFacts.

Lemma quoted_length (s : string) : String.length (quoted s) = String.length s.
Proof.
  induction s as [|c r IH]; simpl; [reflexivity | now rewrite IH].
Qed.

Lemma quoted_char_idempotent (c : ascii) :
  quoted_char (quoted_char c) = quoted_char c.
Proof.
  unfold quoted_char.
  destruct (Ascii.eqb c backtick) eqn:E; [reflexivity | now rewrite E].
Qed.

Lemma quoted_idempotent (s : string) : quoted (quoted s) = quoted s.
Proof.
  induction s as [|c r IH]; simpl; [reflexivity|].
  now rewrite quoted_char_idempotent, IH.
Qed.

Lemma lstrip_length (s : string) :
  leading_spaces s + String.length (lstrip s) = String.length s.
Proof.
  induction s as [|c r IH]; simpl; [reflexivity|].
  destruct (is_space c); simpl; lia.
Qed.

Lemma lstrip_idempotent (s : string) : lstrip (lstrip s) = lstrip s.
Proof.
  induction s as [|c r IH]; simpl; [reflexivity|].
  destruct (is_space c) eqn:E; [exact IH | simpl; now rewrite E].
Qed.

(** Code and comment put the line back together: nothing of a line is
    lost by [split_from], and a line without comment is all code. *)
Lemma split_from_sound (s : string) :
  forall st,
    match split_from st s with
    | (co, Some cm) => s = co ++ String hash cm
    | (co, None) => s = co
    end.
Proof.
  induction s as [|c r IH]; intros st; simpl; [reflexivity|].
  assert (Hgo :
    match (let (co, cm) := split_from (lex_step st c) r in (String c co, cm)) with
    | (co, Some cm) => String c r = co ++ String hash cm
    | (co, None) => String c r = co
    end).
  { specialize (IH (lex_step st c)).
    destruct (split_from (lex_step st c) r) as [co [cm|]]; simpl; now rewrite <- IH. }
  destruct st; try exact Hgo.
  destruct (Ascii.eqb c hash) eqn:E; [|exact Hgo].
  apply Ascii.eqb_eq in E. now subst c.
Qed.

Lemma split_comment_rebuild (s co cm : string) :
  split_comment s = (co, Some cm) -> s = co ++ String hash cm.
Proof.
  intros H. pose proof (split_from_sound s InCode) as S.
  unfold split_comment in H. now rewrite H in S.
Qed.

Lemma split_comment_none (s co : string) :
  split_comment s = (co, None) -> s = co.
Proof.
  intros H. pose proof (split_from_sound s InCode) as S.
  unfold split_comment in H. now rewrite H in S.
Qed.

(** A logical line and what follows it are the text that was given. *)
Lemma take_logical_app (ls : list SourceLine) :
  forall d, (fst (take_logical d ls) ++ snd (take_logical d ls))%list = ls.
Proof.
  induction ls as [|l r IH]; intros d; simpl; [reflexivity|].
  destruct (Nat.eqb (depth_after d l) 0); simpl; [reflexivity|].
  specialize (IH (depth_after d l)).
  destruct (take_logical (depth_after d l) r) as [a b]; simpl in *.
  now rewrite IH.
Qed.

Lemma logical_starts_length (ls : list SourceLine) :
  forall pos start d,
    List.length (logical_starts_from pos start d ls) = List.length ls.
Proof.
  induction ls as [|l r IH]; intros; simpl; [reflexivity | now rewrite IH].
Qed.

(** Every example comes from a line that has both code and a comment,
    and its annotation is that comment. *)
Lemma examples_from_sound (ls rest : list SourceLine) :
  forall i e,
    In e (examples_from ls i rest) ->
    exists l c,
      i <= line e /\
      nth_error rest (line e - i) = Some l /\
      has_code l = true /\
      comment l = Some c /\
      annotation e = parse_annotation c.
Proof.
  induction rest as [|l r IH]; intros i e H; simpl in H; [contradiction|].
  apply in_app_or in H. destruct H as [H|H].
  - unfold example_at in H.
    destruct (comment l) as [c|] eqn:Ec; [|contradiction].
    destruct (has_code l) eqn:Eh; [|contradiction].
    destruct H as [H|[]]. subst e. simpl.
    exists l, c. rewrite Nat.sub_diag. simpl. auto.
  - destruct (IH _ _ H) as (l' & c & Hle & Hn & Hc & Hm & Ha).
    exists l', c. repeat split; try assumption; [lia|].
    replace (line e - i) with (S (line e - S i)) by lia. exact Hn.
Qed.

Lemma violation_examples_annotated (f : FixtureFile) (e : ViolationExample) :
  In e (violation_examples f) ->
  exists l c,
    nth_error (source_lines f) (line e - 1) = Some l /\
    has_code l = true /\ comment l = Some c /\
    annotation e = parse_annotation c.
Proof.
  intros H. destruct (examples_from_sound _ _ _ _ H) as (l & c & _ & Hn & R).
  now exists l, c.
Qed.

End LayoutFacts.

(** ** The runtime model *)

Module RuntimeFacts.

Lemma seq_assoc {R : Type} (a b c : Stmt R) (w : World) :
  ((a ;; b) ;; c) w = (a ;; (b ;; c)) w.
Proof.
  unfold seq. destruct (a w) as [[| r | e] w']; reflexivity.
Qed.

(** Nothing after a [return] runs. *)
Lemma return_cuts {R : Type} (r : R) (b : Stmt R) (w : World) :
  (return_ r ;; b) w = (Return r, w).
Proof. reflexivity. Qed.

Lemma grown_list_differs {A : Type} (l : list A) (x : A) : (l ++ [x])%list <> l.
Proof.
  intros H. apply (f_equal (@List.length A)) in H.
  rewrite length_app in H. simpl in H. lia.
Qed.

Lemma wrote_differs (s : string) (w : World) : wrote s w <> w.
Proof.
  intros H. apply (f_equal stdout) in H. simpl in H.
  now apply grown_list_differs in H.
Qed.

Lemma expects_string_writes (s : Value) (t : string) (w : World) :
  py_str s = Ok t -> expects_string s w = (Ok VNone, wrote t w).
Proof.
  intros H. unfold expects_string, call, print. now rewrite H.
Qed.

Lemma expects_string_refuses (s : Value) (e : string) (w : World) :
  py_str s = Error e -> expects_string s w = (Error e, w).
Proof.
  intros H. unfold expects_string, call, print. now rewrite H.
Qed.

Lemma expects_string_has_effect (s : string) :
  ~ effect_free (expects_string (VStr s)).
Proof.
  intros H. specialize (H initial).
  rewrite (expects_string_writes (VStr s) s) in H by reflexivity.
  now apply wrote_differs in H.
Qed.

(** The limit of [str] on ints lies between 4300 and 4301 digits. *)
Lemma int_limit_boundary :
  fits_str (10 ^ 4300 - 1) = true /\
  fits_str (- (10 ^ 4300 - 1)) = true /\
  fits_str (10 ^ 4300) = false /\
  snd (expects_string (VInt (10 ^ 4300)) initial) = initial.
Proof.
  split; [vm_compute; reflexivity|].
  split; [vm_compute; reflexivity|].
  split; vm_compute; reflexivity.
Qed.

Lemma unreachable_code_effect_free : effect_free unreachable_code.
Proof. intros w. reflexivity. Qed.

Lemma attribute_issues_effect_free : effect_free attribute_issues.
Proof. intros w. reflexivity. Qed.

Lemma mutable_default_changes_default (w : World) :
  mutable_default w =
  (Ok (default_items w ++ [VInt 1])%list,
   {| stdout := stdout w; default_items := (default_items w ++ [VInt 1])%list |}).
Proof. reflexivity. Qed.

(** Two calls in a row do not return the same list. *)
Lemma mutable_default_not_repeatable (w : World) :
  fst (mutable_default (snd (mutable_default w))) <> fst (mutable_default w).
Proof.
  rewrite !mutable_default_changes_default. simpl.
  intros H. injection H as H. now apply grown_list_differs in H.
Qed.

End RuntimeFacts.

(** ** The corpus *)

Module CorpusFacts.

(** [pick f n] gives the [n]-th example of file [f] as the witness of an
    existential goal, and shows that it is one of the examples. *)
Ltac pick f n :=
  let r := eval vm_compute in (nth_error (violation_examples f) n) in
  match r with
  | Some ?x =>
      exists x; split;
      [ apply (nth_error_In (violation_examples f) n); vm_compute; reflexivity | ]
  end.

Ltac by_evaluation := repeat split; vm_compute; reflexivity.

Lemma tool_of_mypy_issues : tool_of mypy_issues = Some TypeChecker.
Proof. vm_compute. reflexivity. Qed.

Lemma tool_of_ruff_issues : tool_of ruff_issues = Some Linter.
Proof. vm_compute. reflexivity. Qed.

(** Every headed block of both files holds code, so each heading does
    announce a snippet. *)
Lemma headed_blocks_have_code :
  forallb block_has_code (headed_blocks mypy_issues) = true /\
  forallb block_has_code (headed_blocks ruff_issues) = true.
Proof. by_evaluation. Qed.

(** The text as embedded has the size of the files, the double quotes are
    back in place and no backtick is left. *)
Lemma size_of_files :
  map char_count corpus = [3300; 2388] /\
  map (count_in_file dquote) corpus = [52; 20] /\
  map (count_in_file backtick) corpus = [0; 0].
Proof. by_evaluation. Qed.

(** Read strictly, a comment is inline when its line has code too: two
    blocks have no such line, [Bare except] and the block of the type
    checker's file whose one comment stands on a line of its own. *)
Lemma blocks_without_inline_comment :
  map heading
      (filter (fun b => negb (block_has_inline_comment b))
              (headed_blocks mypy_issues)) = ["Missing return statement"] /\
  map heading
      (filter (fun b => negb (block_has_inline_comment b))
              (headed_blocks ruff_issues)) = ["Bare except"].
Proof. by_evaluation. Qed.

(** The headings of the two files, with their lines. *)
Lemma headings_of_ruff_issues :
  map (fun b => (heading_line b, block_has_comment b))
      (headed_blocks ruff_issues) =
  [(6, true); (37, true); (45, true); (55, true); (62, true);
   (66, false); (74, true); (80, true); (85, true)].
Proof. vm_compute. reflexivity. Qed.

Lemma headings_of_mypy_issues :
  map heading_line (headed_blocks mypy_issues) =
  [7; 12; 21; 27; 33; 38; 44; 50; 55; 60; 71; 82; 94; 115; 123; 137; 151] /\
  forallb block_has_comment (headed_blocks mypy_issues) = true.
Proof. by_evaluation. Qed.

(** C2. The two snippets that the specification names are in the corpus:
    the type checker's file has an example whose statement is [return 42]
    inside a function declared [-> str], annotated as an error of an
    incompatible return value type; the linter's file has an example
    whose statement is [a=1], annotated E225, missing whitespace around
    operator. *)
Theorem named_snippets_present :
  (exists e,
      In e (violation_examples mypy_issues) /\
      enclosing e = ["def returns_wrong_type() -> str:"] /\
      snippet e = ["return 42"] /\
      annotation e =
        {| kind := Some "error";
           message := quoted "Incompatible return value type (got `int`, expected `str`)" |}) /\
  (exists e,
      In e (violation_examples ruff_issues) /\
      snippet e = ["a=1"] /\
      annotation e =
        {| kind := Some "E225";
           message := "Missing whitespace around operator" |}).
Proof.
  split.
  - pick mypy_issues 0. by_evaluation.
  - pick ruff_issues 2. by_evaluation.
Qed.

(** C3. The linter's file has an example whose snippet is a dictionary
    display with two entries, both under the key [key], and whose comment
    records a duplicate key. *)
Theorem duplicate_key_example_present :
  exists e,
    In e (violation_examples ruff_issues) /\
    snippet e =
      map quoted ["duplicate_dict = {"; "    `key`: 1,"; "    `key`: 2,"; "}"] /\
    dict_display_keys (snippet e) = Some ["key"; "key"] /\
    message (annotation e) = "Duplicate key".
Proof.
  pick ruff_issues 20. by_evaluation.
Qed.

(** C4. The linter's file has an example whose snippet is a function
    with a parameter defaulted to an empty list, annotated B006 (no
    mutable data structures for argument defaults), and an example whose
    snippet compares [x == None], annotated E711 (the comparison should
    be [is None]). *)
Theorem mutable_default_and_none_comparison_present :
  (exists e,
      In e (violation_examples ruff_issues) /\
      snippet e =
        ["def mutable_default(items=[]):"; "    items.append(1)";
         "    return items"] /\
      annotation e =
        {| kind := Some "B006";
           message := "Do not use mutable data structures for argument defaults" |}) /\
  (exists e,
      In e (violation_examples ruff_issues) /\
      snippet e = ["if x == None:"; "    pass"] /\
      annotation e =
        {| kind := Some "E711";
           message := "Comparison to None should be 'is None'" |}).
Proof.
  split.
  - pick ruff_issues 18. by_evaluation.
  - pick ruff_issues 13. by_evaluation.
Qed.

(** C5. Among the headed blocks of both files, the one block without
    any comment under its heading is the block headed [Bare except] of
    the linter's file (heading on line 66, function
    [bare_except_handler] on lines 67 to 71): this example records no
    diagnostic, while every other block does. *)
Theorem bare_except_block_uncommented :
  uncommented_blocks mypy_issues = [] /\
  map (fun b => (heading b, heading_line b)) (uncommented_blocks ruff_issues) =
    [("Bare except", 66)] /\
  map (fun b => map code (body b)) (uncommented_blocks ruff_issues) =
    [["def bare_except_handler():"; "    try:"; "        pass";
      "    except Exception:"; "        pass"; EmptyString; EmptyString]].
Proof. by_evaluation. Qed.

(** C8. The corpus is the two files [test-fixtures/mypy-issues.py] and
    [test-fixtures/ruff-issues.py], both Python files; the first is the
    one file for the type checker and the second the one file for the
    linter, and no other tool name has a file. *)
Theorem corpus_maps_two_tools :
  map path corpus =
    ["test-fixtures/mypy-issues.py"; "test-fixtures/ruff-issues.py"] /\
  forallb (fun f => ends_with ".py" (path f)) corpus = true /\
  map tool_of corpus = [Some TypeChecker; Some Linter] /\
  fixtures_for TypeChecker = [mypy_issues] /\
  fixtures_for Linter = [ruff_issues] /\
  (forall n,
      fixtures_named n =
      if String.eqb "type-checker" n then [mypy_issues]
      else if String.eqb "linter" n then [ruff_issues]
      else []).
Proof.
  repeat split; try (vm_compute; reflexivity).
  intros n. unfold fixtures_named, corpus, filter.
  rewrite tool_of_mypy_issues, tool_of_ruff_issues. unfold tool_name.
  destruct (String.eqb "type-checker" n) eqn:E1;
    destruct (String.eqb "linter" n) eqn:E2; try reflexivity.
  apply String.eqb_eq in E1, E2. subst n. discriminate E2.
Qed.

(** C9. The two files have 157 and 89 lines, 246 lines together (245
    newline characters, the last line of the linter's file having no
    line end). *)
Theorem corpus_has_246_lines :
  line_count mypy_issues = 157 /\
  line_count ruff_issues = 89 /\
  total_lines corpus = 246 /\
  total_newlines corpus = 245.
Proof. by_evaluation. Qed.

(** C10. The linter's file has one example annotated F541, on line 58;
    its statement is [greeting = "hello"], whose one string literal has
    no prefix, so the snippet holds no f-string (and neither does any
    other line of the file). *)
Theorem f541_example_has_no_fstring :
  map (fun e => (line e, snippet e, message (annotation e)))
      (filter (fun e => has_kind "F541" (annotation e))
              (violation_examples ruff_issues)) =
    [(58, [quoted "greeting = `hello`"], "f-string without placeholders")] /\
  literal_prefixes (quoted "greeting = `hello`") = [EmptyString] /\
  has_fstring (quoted "greeting = `hello`") = false /\
  existsb (fun l => has_fstring (code l)) (source_lines ruff_issues) = false.
Proof. by_evaluation. Qed.

End CorpusFacts.

(** ** Effects of the snippets *)

Module EffectFacts.

Import RuntimeFacts.

(** C6, as stated, fails: [expects_string] (mypy-issues.py, lines 13 and
    14) prints its argument, so the snippets are not free of I/O. *)
Lemma snippets_have_effects : ~ snippets_effect_free.
Proof.
  intros [H _].
  exact (expects_string_has_effect "hello" (H (VStr "hello"))).
Qed.

(** C6, amended.  The snippets read no input and import nothing but
    [typing] and [collections].  They are not free of effects: [print] is
    called on lines 14 and 68 of the type checker's file and on line 34
    of the linter's, each time inside a function body.  Called with None,
    a str of ASCII characters, or an int of at most 4300 digits,
    [expects_string] writes the text of its argument as a line and
    returns None; called with a longer int it raises ValueError and writes
    nothing; [call_with_wrong_type] writes the line [123].  [attribute_issues] raises AttributeError
    before it prints and changes nothing; [unreachable_code] returns
    before it prints and changes nothing; [mutable_default], called
    without argument, appends 1 to its default list. *)
Theorem snippets_effects :
  imported_modules mypy_issues = repeat "typing" 6 /\
  imported_modules ruff_issues = ["collections"] /\
  map (lines_calling "input") corpus = [[]; []] /\
  map (lines_calling "open") corpus = [[]; []] /\
  map (lines_calling "print") corpus = [[14; 68]; [34]] /\
  forallb (inside_def mypy_issues) [14; 68] = true /\
  inside_def ruff_issues 34 = true /\
  (forall w, expects_string VNone w = (Ok VNone, wrote "None" w)) /\
  (forall s w,
      if ascii_only s
      then expects_string (VStr s) w = (Ok VNone, wrote s w)
      else True) /\
  (forall n w,
      if fits_str n
      then expects_string (VInt n) w = (Ok VNone, wrote (decimal n) w)
      else raises "ValueError" (fst (expects_string (VInt n) w)) /\
           snd (expects_string (VInt n) w) = w) /\
  (forall w, call_with_wrong_type w = (Ok VNone, wrote "123" w)) /\
  (forall w, raises "AttributeError" (fst (attribute_issues w))) /\
  effect_free attribute_issues /\
  effect_free unreachable_code /\
  (forall w,
      mutable_default w =
      (Ok (default_items w ++ [VInt 1])%list,
       {| stdout := stdout w;
          default_items := (default_items w ++ [VInt 1])%list |})).
Proof.
  repeat split; try (vm_compute; reflexivity).
  - intros s w. now destruct (ascii_only s).
  - intros n w. unfold expects_string, call, print, py_str.
    destruct (fits_str n); [reflexivity|].
    split; [eexists|]; reflexivity.
  - intros w. eexists. reflexivity.
Qed.

End EffectFacts.

(** ** Behaviour of the snippets *)

Module SnippetFacts.

Import RuntimeFacts.

Ltac raised := eexists; reflexivity.

Lemma world_eta (w : World) :
  {| stdout := stdout w; default_items := default_items w |} = w.
Proof. destruct w; reflexivity. Qed.

Lemma string_of_int_not_empty (n : Z) : decimal n <> EmptyString.
Proof.
  unfold decimal.
  destruct (Z.to_int n) as [d|d]; simpl; [|discriminate].
  destruct d; simpl; discriminate.
Qed.

Lemma to_int_not_nil (n : Z) :
  Z.to_int n <> Decimal.Pos Decimal.Nil /\ Z.to_int n <> Decimal.Neg Decimal.Nil.
Proof.
  destruct n as [|p|p]; simpl; split; try discriminate;
    intros H; injection H as H; now apply DecimalPos.Unsigned.to_uint_nonnil in H.
Qed.

(** The decimal text of an int reads back as that int. *)
Lemma decimal_reads_back (n : Z) :
  option_map Z.of_int (NilZero.int_of_string (decimal n)) = Some n.
Proof.
  unfold decimal. destruct (to_int_not_nil n) as [P N].
  rewrite NilZero.isi by assumption. simpl. now rewrite DecimalZ.of_to.
Qed.

Lemma digits_ascii (d : Decimal.uint) :
  ascii_only (NilEmpty.string_of_uint d) = true.
Proof.
  unfold ascii_only. induction d; simpl; auto.
Qed.

Lemma decimal_ascii (n : Z) : ascii_only (decimal n) = true.
Proof.
  unfold decimal, NilZero.string_of_int, NilZero.string_of_uint.
  destruct (Z.to_int n) as [d|d]; destruct d;
    try reflexivity; try apply digits_ascii;
    unfold ascii_only; simpl; apply digits_ascii.
Qed.

Lemma py_upper_length (s : string) :
  String.length (py_upper s) = String.length s.
Proof.
  induction s as [|c r IH]; simpl; [reflexivity | now rewrite IH].
Qed.

Lemma upper_char_not_lower (c : ascii) : is_lower (upper_char c) = false.
Proof.
  unfold upper_char, is_lower.
  destruct (Nat.leb 97 (nat_of_ascii c) && Nat.leb (nat_of_ascii c) 122) eqn:E.
  - apply andb_true_iff in E. destruct E as [E1 E2].
    apply Nat.leb_le in E1, E2.
    rewrite nat_ascii_embedding by lia.
    apply andb_false_iff. left. apply Nat.leb_gt. lia.
  - exact E.
Qed.

Lemma upper_char_fixes (c : ascii) : is_lower c = false -> upper_char c = c.
Proof.
  unfold upper_char, is_lower. intros H. now rewrite H.
Qed.

Lemma upper_char_ascii (c : ascii) :
  Nat.ltb (nat_of_ascii c) 128 = true ->
  Nat.ltb (nat_of_ascii (upper_char c)) 128 = true.
Proof.
  unfold upper_char. intros H.
  destruct (Nat.leb 97 (nat_of_ascii c) && Nat.leb (nat_of_ascii c) 122) eqn:E;
    [|exact H].
  apply andb_true_iff in E. destruct E as [E1 E2].
  apply Nat.leb_le in E1, E2.
  rewrite nat_ascii_embedding by lia.
  apply Nat.ltb_lt. lia.
Qed.

Lemma py_upper_idempotent (s : string) : py_upper (py_upper s) = py_upper s.
Proof.
  induction s as [|c r IH]; simpl; [reflexivity|].
  rewrite IH. f_equal. apply upper_char_fixes, upper_char_not_lower.
Qed.

Lemma py_upper_no_lower (s : string) : has_lower (py_upper s) = false.
Proof.
  unfold has_lower.
  induction s as [|c r IH]; simpl; [reflexivity|].
  now rewrite upper_char_not_lower, IH.
Qed.

Lemma py_upper_ascii (s : string) :
  ascii_only s = true -> ascii_only (py_upper s) = true.
Proof.
  unfold ascii_only.
  induction s as [|c r IH]; simpl; [reflexivity|].
  intros H. apply andb_true_iff in H. destruct H as [H1 H2].
  now rewrite (upper_char_ascii c H1), (IH H2).
Qed.

Lemma dict_get_set_same (k : string) (v : Value) (d : Dict) :
  dict_get k (dict_set k v d) = Some v.
Proof.
  induction d as [|[k' v'] r IH]; simpl.
  - now rewrite String.eqb_refl.
  - destruct (String.eqb k' k) eqn:E; simpl; now rewrite E.
Qed.

Lemma dict_get_set_other (k k' : string) (v : Value) (d : Dict) :
  String.eqb k' k = false ->
  dict_get k (dict_set k' v d) = dict_get k d.
Proof.
  intros N. induction d as [|[k0 v0] r IH]; simpl.
  - now rewrite N.
  - destruct (String.eqb k0 k') eqn:E; simpl.
    + apply String.eqb_eq in E. subst k0. now rewrite N.
    + destruct (String.eqb k0 k); [reflexivity | exact IH].
Qed.

Lemma dict_set_keys (k : string) (v : Value) (d : Dict) :
  map fst (dict_set k v d) =
  if existsb (String.eqb k) (map fst d) then map fst d
  else (map fst d ++ [k])%list.
Proof.
  induction d as [|[k' v'] r IH]; simpl; [reflexivity|].
  rewrite (String.eqb_sym k k').
  destruct (String.eqb k' k) eqn:E; simpl; [reflexivity|].
  rewrite IH. now destruct (existsb (String.eqb k) (map fst r)).
Qed.

Lemma existsb_eqb_In (k : string) (ks : list string) :
  existsb (String.eqb k) ks = false -> ~ In k ks.
Proof.
  induction ks as [|a r IH]; simpl; [tauto|].
  intros H. apply orb_false_iff in H. destruct H as [H1 H2].
  intros [E|I]; [|now apply IH].
  subst a. now rewrite String.eqb_refl in H1.
Qed.

Lemma dict_set_NoDup (k : string) (v : Value) (d : Dict) :
  NoDup (map fst d) -> NoDup (map fst (dict_set k v d)).
Proof.
  intros H. rewrite dict_set_keys.
  destruct (existsb (String.eqb k) (map fst d)) eqn:E; [exact H|].
  apply NoDup_app; [exact H | repeat constructor; simpl; tauto |].
  intros x Hx [Hk|[]]. subst x. now apply (existsb_eqb_In _ _ E).
Qed.

Lemma fold_dict_get (k : string) (es : list (string * Value)) :
  forall d,
    dict_get k (fold_left (fun d e => dict_set (fst e) (snd e) d) es d) =
    match last_entry k es with
    | Some v => Some v
    | None => dict_get k d
    end.
Proof.
  induction es as [|[k' v] r IH]; intros d; simpl; [reflexivity|].
  rewrite IH. destruct (last_entry k r); [reflexivity|].
  destruct (String.eqb k' k) eqn:E.
  - apply String.eqb_eq in E. subst k'. apply dict_get_set_same.
  - now apply dict_get_set_other.
Qed.

Lemma fold_dict_NoDup (es : list (string * Value)) :
  forall d,
    NoDup (map fst d) ->
    NoDup (map fst (fold_left (fun d e => dict_set (fst e) (snd e) d) es d)).
Proof.
  induction es as [|e r IH]; intros d H; simpl; [exact H|].
  apply IH. now apply dict_set_NoDup.
Qed.

(** *** Calls that act on the world *)

(** X1. [n] calls of [mutable_default] without argument, one after the
    other: the [k]-th call returns the default list with [k] more ones,
    and after the calls the default list is [n] longer; nothing is
    written. *)
Theorem mutable_default_accumulates (n : nat) :
  forall w,
    run_times n mutable_default w =
    (map (fun k => Ok (default_items w ++ repeat (VInt 1) k)%list) (List.seq 1 n),
     {| stdout := stdout w;
        default_items := (default_items w ++ repeat (VInt 1) n)%list |}).
Proof.
  induction n as [|n IH]; intros w.
  - simpl. now rewrite app_nil_r, world_eta.
  - change (run_times (S n) mutable_default w)
      with (let (r, w1) := mutable_default w in
            let (rs, w2) := run_times n mutable_default w1 in (r :: rs, w2)).
    rewrite mutable_default_changes_default, IH.
    change (List.seq 1 (S n)) with (1 :: List.seq 2 n).
    rewrite <- (List.seq_shift n 1). cbn [map stdout default_items].
    rewrite map_map. f_equal.
    + f_equal.
      apply map_ext. intros k. now rewrite <- app_assoc.
    + now rewrite <- app_assoc.
Qed.

Lemma plain_text (v : Value) : plain v = true -> py_str v = Ok (text_of v).
Proof.
  unfold plain, printable, text_of. now destruct (py_str v).
Qed.

Lemma run_each_expects_string (args : list Value) :
  forallb plain args = true ->
  forall w,
    run_each expects_string args w =
    (map (fun _ => Ok VNone) args,
     {| stdout := (stdout w ++ map line_of args)%list;
        default_items := default_items w |}).
Proof.
  induction args as [|a r IH]; intros P w.
  - simpl. now rewrite app_nil_r, world_eta.
  - simpl in P. apply andb_true_iff in P. destruct P as [Pa Pr].
    change (run_each expects_string (a :: r) w)
      with (let (x, w1) := expects_string a w in
            let (xs, w2) := run_each expects_string r w1 in (x :: xs, w2)).
    rewrite (expects_string_writes a (text_of a)) by now apply plain_text.
    rewrite (IH Pr). unfold wrote, line_of. simpl.
    now rewrite <- app_assoc.
Qed.

(** X4. Calls of [expects_string] with arguments that are None, strs of
    ASCII characters or ints of at most 4300 digits all return None and
    only add to the output, one line for each argument in the order of
    the calls: the text [None], the str itself, the decimal text of the
    int.  A call with a longer int raises ValueError and writes nothing.
    [call_with_wrong_type] is one such call, with 123, and writes the line
    [123]. *)
Theorem expects_string_appends (args : list Value) (w : World) :
  forallb plain args = true ->
  run_each expects_string args w =
  (map (fun _ => Ok VNone) args,
   {| stdout := (stdout w ++ map line_of args)%list;
      default_items := default_items w |}) /\
  plain VNone = true /\
  line_of VNone = "None" ++ newline /\
  (forall s, plain (VStr s) = ascii_only s /\ line_of (VStr s) = s ++ newline) /\
  (forall n, plain (VInt n) = fits_str n) /\
  (forall n,
      if fits_str n then line_of (VInt n) = decimal n ++ newline
      else raises "ValueError" (fst (expects_string (VInt n) w)) /\
           snd (expects_string (VInt n) w) = w) /\
  call_with_wrong_type w = expects_string (VInt 123) w /\
  fits_str 123 = true /\
  decimal 123 = "123".
Proof.
  intros P. split; [now apply run_each_expects_string|].
  repeat split.
  - intros n. unfold plain, printable, py_str. now destruct (fits_str n).
  - intros n. unfold line_of, text_of, expects_string, call, print, py_str.
    destruct (fits_str n); [reflexivity|].
    split; [eexists|]; reflexivity.
Qed.

Lemma expects_string_appends_witness :
  forallb plain [VInt 123; VStr "abc"; VNone] = true /\
  run_each expects_string [VInt 123; VStr "abc"; VNone] initial =
  (map (fun _ => Ok VNone) [VInt 123; VStr "abc"; VNone],
   {| stdout := (stdout initial ++
                 map line_of [VInt 123; VStr "abc"; VNone])%list;
      default_items := default_items initial |}).
Proof.
  split; [reflexivity|].
  apply (expects_string_appends [VInt 123; VStr "abc"; VNone] initial).
  reflexivity.
Defined.

(** *** Functions of one argument *)

(** X5. [union_issues] returns [x + 1] when [x] is an int; for a str and
    for None it raises TypeError.  It never acts on the world. *)
Theorem union_issues_behaviour (x : Value) (w : World) :
  snd (union_issues x w) = w /\
  match x with
  | VInt n => fst (union_issues x w) = Ok (VInt (n + 1))
  | _ => raises "TypeError" (fst (union_issues x w))
  end.
Proof.
  destruct x; (split; [reflexivity|]); try reflexivity; raised.
Qed.

(** X6. [none_issues] raises AttributeError for None, which its
    annotation [Optional[str]] lets in, and for an int; for a str it
    raises nothing and returns a str.  It never acts on the world. *)
Theorem none_issues_behaviour (x : Value) (w : World) :
  snd (none_issues x w) = w /\
  match x with
  | VStr s => exists u, fst (none_issues x w) = Ok (VStr u)
  | _ => raises "AttributeError" (fst (none_issues x w))
  end.
Proof.
  destruct x; (split; [reflexivity|]); raised.
Qed.

(** X7. On a str of ASCII characters [none_issues] returns a str of
    ASCII characters of the same length, without lower-case letters, on
    which a second call changes nothing more. *)
Theorem none_issues_upper_case (s : string) (w : World) :
  ascii_only s = true ->
  exists u,
    none_issues (VStr s) w = (Ok (VStr u), w) /\
    String.length u = String.length s /\
    ascii_only u = true /\
    has_lower u = false /\
    none_issues (VStr u) w = (Ok (VStr u), w).
Proof.
  intros H. exists (py_upper s). repeat split.
  - apply py_upper_length.
  - now apply py_upper_ascii.
  - apply py_upper_no_lower.
  - unfold none_issues, call, eval, method_upper, return_.
    now rewrite py_upper_idempotent.
Qed.

Lemma none_issues_upper_case_witness :
  ascii_only "Hello, world 42" = true /\
  exists u,
    none_issues (VStr "Hello, world 42") initial = (Ok (VStr u), initial) /\
    String.length u = String.length "Hello, world 42" /\
    ascii_only u = true /\
    has_lower u = false /\
    none_issues (VStr u) initial = (Ok (VStr u), initial).
Proof.
  split; [reflexivity|].
  apply (none_issues_upper_case "Hello, world 42" initial). reflexivity.
Defined.

(** X8. [square] returns [x * x] for an int, which is never negative and
    the same for [x] and [-x]; for a str and for None it raises TypeError.
    It never acts on the world. *)
Theorem square_behaviour (x : Value) (w : World) :
  snd (square x w) = w /\
  match x with
  | VInt n =>
      fst (square x w) = Ok (VInt (n * n)) /\
      (0 <= n * n)%Z /\
      square (VInt (- n)) w = square x w
  | _ => raises "TypeError" (fst (square x w))
  end.
Proof.
  destruct x; (split; [reflexivity|]); try raised.
  split; [reflexivity|]. split; [apply Z.square_nonneg|].
  unfold square, call, eval, py_mul, return_. now rewrite Z.mul_opp_opp.
Qed.

(** X9. The override [Derived.method] does not stand in for
    [Base.method].  On an int of at most 4300 digits [Base.method]
    returns its decimal text, which reads back as that int, is not empty
    and is made of ASCII characters; on a longer int it raises
    ValueError.  [Derived.method] raises TypeError on every int, and on
    every str of ASCII characters it returns the length.  Neither acts on
    the world. *)
Theorem override_rejects_ints (n : Z) (s : string) (w : World) :
  ascii_only s = true ->
  (if fits_str n
   then Base_method (VInt n) w = (Ok (VStr (decimal n)), w)
   else raises "ValueError" (fst (Base_method (VInt n) w)) /\
        snd (Base_method (VInt n) w) = w) /\
  option_map Z.of_int (NilZero.int_of_string (decimal n)) = Some n /\
  decimal n <> EmptyString /\
  ascii_only (decimal n) = true /\
  raises "TypeError" (fst (Derived_method (VInt n) w)) /\
  snd (Derived_method (VInt n) w) = w /\
  Derived_method (VStr s) w = (Ok (VInt (Z.of_nat (String.length s))), w).
Proof.
  intros _. repeat split.
  - unfold Base_method, call, py_str.
    destruct (fits_str n); [reflexivity|].
    split; [eexists|]; reflexivity.
  - apply decimal_reads_back.
  - apply string_of_int_not_empty.
  - apply decimal_ascii.
  - raised.
Qed.

Lemma override_rejects_ints_witness :
  ascii_only "abc" = true /\
  Derived_method (VStr "abc") initial =
    (Ok (VInt (Z.of_nat (String.length "abc"))), initial) /\
  Base_method (VInt (-7)) initial = (Ok (VStr "-7"), initial).
Proof.
  split; [reflexivity|].
  destruct (override_rejects_ints (-7) "abc" initial eq_refl)
    as (B & _ & _ & _ & _ & _ & D).
  split; [exact D | exact B].
Defined.

(** X10. Functions whose result is fixed, for arguments of type
    NoneType, int or str: [badly_formatted_function] returns 6 for every three
    such arguments, [comparison_issues] returns None for every such
    argument, an assert on a pair of such values passes,
    [unused_variable_function] returns 1 and [fstring_issues] returns
    [hello]; none of them acts on the world. *)
Theorem constant_functions (x y z : Value) (w : World) :
  badly_formatted_function x y z w = (Ok (VInt 6), w) /\
  comparison_issues x w = (Ok VNone, w) /\
  assert_pair x y w = (Ok VNone, w) /\
  assert_tuple w = (Ok VNone, w) /\
  unused_variable_function w = (Ok (VInt 1), w) /\
  fstring_issues w = (Ok (VStr "hello"), w).
Proof.
  repeat split.
  - unfold badly_formatted_function. now destruct (py_eq x (VInt 1)).
  - unfold comparison_issues.
    now destruct (py_eq x VNone), (py_eq x (VInt 1)),
      (String.eqb (type_name x) "int").
Qed.

(** *** Annotations and results *)

(** X11. Two functions return a value that is not of the type their
    header declares: [returns_wrong_type], declared [-> str], returns the
    int 42, and [missing_return], declared [-> int], returns None. *)
Theorem declared_type_not_returned (w : World) :
  declared_returns_of "returns_wrong_type" mypy_issues = [Some "str"] /\
  returns_wrong_type w = (Ok (VInt 42), w) /\
  annotation_accepts "str" (VInt 42) = false /\
  declared_returns_of "missing_return" mypy_issues = [Some "int"] /\
  missing_return w = (Ok VNone, w) /\
  annotation_accepts "int" VNone = false.
Proof. repeat split; vm_compute; reflexivity. Qed.

(** X12. Called with a value of type NoneType, int or str, the other
    annotated functions keep their declared return type whenever they
    return:
    [expects_string] (None), [none_issues] (str), [union_issues] (int),
    [Base.method] (str), [Derived.method] (int), and [process] on an int
    (int) and on a str (str), as its two overloads declare. *)
Theorem declared_type_kept (x : Value) (w : World) :
  map (fun n => declared_returns_of n mypy_issues)
      ["expects_string"; "none_issues"; "union_issues"; "method"; "process"] =
    [[Some "None"]; [Some "str"]; [Some "int"]; [Some "str"; Some "int"];
     [Some "int"; Some "str"; None]] /\
  returns_as "None" (fst (expects_string x w)) /\
  returns_as "str" (fst (none_issues x w)) /\
  returns_as "int" (fst (union_issues x w)) /\
  returns_as "str" (fst (Base_method x w)) /\
  returns_as "int" (fst (Derived_method x w)) /\
  (forall n, returns_as "int" (fst (process (VInt n) w))) /\
  (forall s, returns_as "str" (fst (process (VStr s) w))).
Proof.
  split; [vm_compute; reflexivity|].
  repeat split; destruct x; simpl; auto;
    unfold expects_string, Base_method, call, print, py_str;
    destruct (fits_str n); simpl; auto.
Qed.

(** X13. [draw_shape] needs the method it calls: on an object whose class
    defines no [draw] it raises AttributeError and does nothing else; on
    an object that has one it runs it and returns None, or passes on its
    exception.  So [protocol_violation], which hands it a [Circle], and
    [attribute_issues] always raise AttributeError and write nothing. *)
Theorem draw_shape_behaviour (shape : Instance) (w : World) :
  match find_method "draw" (methods shape) with
  | None =>
      raises "AttributeError" (fst (draw_shape shape w)) /\
      snd (draw_shape shape w) = w
  | Some m =>
      draw_shape shape w =
      match m w with
      | (Ok _, w') => (Ok VNone, w')
      | (Error e, w') => (Error e, w')
      end
  end /\
  raises "AttributeError" (fst (protocol_violation w)) /\
  snd (protocol_violation w) = w /\
  raises "AttributeError" (fst (attribute_issues w)) /\
  snd (attribute_issues w) = w.
Proof.
  split; [|repeat split; raised].
  unfold draw_shape.
  destruct (find_method "draw" (methods shape)) as [m|].
  - unfold call, expr_stmt. now destruct (m w) as [[v|e] w'].
  - split; [raised | reflexivity].
Qed.

(** *** The dictionary display *)

(** X14. In a dictionary display every key is kept once, with the value
    of its last entry: so [duplicate_dict] has the single item
    [key -> 2], and the 1 of its first entry is lost. *)
Theorem display_keeps_last_entry (entries : list (string * Value)) (k : string) :
  dict_get k (dict_display entries) = last_entry k entries /\
  NoDup (map fst (dict_display entries)) /\
  duplicate_dict = [("key", VInt 2)].
Proof.
  unfold dict_display. repeat split.
  - rewrite fold_dict_get. now destruct (last_entry k entries).
  - apply fold_dict_NoDup. constructor.
Qed.

End SnippetFacts.

(** ** List objects *)

Module HeapFacts.

Lemma store_set_length (l : list Value) (h : Store) :
  forall a, List.length (store_set a l h) = List.length h.
Proof.
  induction h as [|x r IH]; intros [|a]; simpl; try reflexivity.
  now rewrite IH.
Qed.

Lemma store_set_same (l : list Value) (h : Store) :
  forall a, a < List.length h -> nth_error (store_set a l h) a = Some l.
Proof.
  induction h as [|x r IH]; intros [|a] H; simpl in *; try lia.
  - reflexivity.
  - apply IH. lia.
Qed.

Lemma store_set_other (l : list Value) (h : Store) :
  forall a b, b <> a -> nth_error (store_set a l h) b = nth_error h b.
Proof.
  induction h as [|x r IH]; intros [|a] [|b] N; simpl; try reflexivity.
  - contradiction.
  - apply IH. congruence.
Qed.

Lemma append_at_spec (a : nat) (v : Value) (l : list Value) (h : Store) :
  nth_error h a = Some l ->
  exists h',
    append_at a v h = Some h' /\
    nth_error h' a = Some (l ++ [v])%list /\
    (forall b, b <> a -> nth_error h' b = nth_error h b) /\
    List.length h' = List.length h.
Proof.
  intros H. unfold append_at. rewrite H.
  exists (store_set a (l ++ [v]) h). repeat split.
  - apply store_set_same. apply nth_error_Some. congruence.
  - intros b N. now apply store_set_other.
  - apply store_set_length.
Qed.

(** X2. Called with a list, [mutable_default] appends 1 to that very
    list and returns it; every other list, the default one included when
    it is another, stays as it is, and no list is made or lost. *)
Theorem mutable_default_on_argument (dflt a : nat) (l : list Value) (h : Store) :
  nth_error h a = Some l ->
  exists h',
    mutable_default_on dflt (Some (ListAt a)) h = (Ok (ListAt a), h') /\
    nth_error h' a = Some (l ++ [VInt 1])%list /\
    (forall b, b <> a -> nth_error h' b = nth_error h b) /\
    List.length h' = List.length h.
Proof.
  intros H.
  destruct (append_at_spec a (VInt 1) l h H) as (h' & Ha & R).
  exists h'. split; [|exact R].
  unfold mutable_default_on. now rewrite Ha.
Qed.

Lemma mutable_default_on_argument_witness :
  nth_error [[]; [VInt 7]] 1 = Some [VInt 7] /\
  exists h',
    mutable_default_on 0 (Some (ListAt 1)) [[]; [VInt 7]] = (Ok (ListAt 1), h') /\
    nth_error h' 1 = Some ([VInt 7] ++ [VInt 1])%list /\
    (forall b, b <> 1 -> nth_error h' b = nth_error [[]; [VInt 7]] b) /\
    List.length h' = List.length [[]; [VInt 7]].
Proof.
  split; [reflexivity|].
  apply (mutable_default_on_argument 0 1 [VInt 7] [[]; [VInt 7]]). reflexivity.
Defined.

(** X3. Called without argument, [mutable_default] works on the default
    object: when the store holds at [dflt] the list that the world has as
    default, the call on the store returns the object at [dflt], which
    then holds what the call on the world leaves as default and returns,
    and no other list changes. *)
Theorem default_object_is_shared (dflt : nat) (h : Store) (w : World) :
  nth_error h dflt = Some (default_items w) ->
  exists h',
    mutable_default_on dflt None h = (Ok (ListAt dflt), h') /\
    nth_error h' dflt = Some (default_items (snd (mutable_default w))) /\
    fst (mutable_default w) = Ok (default_items (snd (mutable_default w))) /\
    (forall b, b <> dflt -> nth_error h' b = nth_error h b).
Proof.
  intros H.
  destruct (append_at_spec dflt (VInt 1) _ h H) as (h' & Ha & Hs & Ho & _).
  exists h'. repeat split.
  - unfold mutable_default_on. now rewrite Ha.
  - exact Hs.
  - exact Ho.
Qed.

Lemma default_object_is_shared_witness :
  nth_error [[VInt 1]; []] 0 =
    Some (default_items {| stdout := []; default_items := [VInt 1] |}) /\
  exists h',
    mutable_default_on 0 None [[VInt 1]; []] = (Ok (ListAt 0), h') /\
    nth_error h' 0 =
      Some (default_items
              (snd (mutable_default {| stdout := []; default_items := [VInt 1] |}))) /\
    fst (mutable_default {| stdout := []; default_items := [VInt 1] |}) =
      Ok (default_items
            (snd (mutable_default {| stdout := []; default_items := [VInt 1] |}))) /\
    (forall b, b <> 0 -> nth_error h' b = nth_error [[VInt 1]; []] b).
Proof.
  split; [reflexivity|].
  apply (default_object_is_shared 0 [[VInt 1]; []]
           {| stdout := []; default_items := [VInt 1] |}).
  reflexivity.
Defined.

End HeapFacts.

(** ** Measures of the text *)

Module CheckFacts.

Ltac evaluated := repeat split; vm_compute; reflexivity.

(** X15. In the type checker's file the kind of every annotation is
    [error]; of its 18 annotated lines only line 103, the remark on the
    class [Circle], has no kind. *)
Theorem type_checker_kinds :
  List.length (violation_examples mypy_issues) = 18 /\
  odd_kinds (String.eqb "error") mypy_issues = [(103, None)].
Proof. evaluated. Qed.

(** X16. In the linter's file the kind of an annotation is a rule code,
    a capital letter and three digits; of its 21 annotated lines only
    line 34 ([F821 style]) and line 88 (no kind) are otherwise. *)
Theorem linter_kinds :
  List.length (violation_examples ruff_issues) = 21 /\
  odd_kinds is_rule_code ruff_issues = [(34, Some "F821 style"); (88, None)].
Proof. evaluated. Qed.

(** X17. The comment of line 6 of the linter's file, marked E501, is the
    longest line of the corpus, 118 characters, and the only one over
    100; over 88 there are two more, line 75 of the same file (96) and
    line 41 of the type checker's file (89). *)
Theorem long_lines_of_corpus :
  option_map parse_annotation
             (comment (nth 5 (source_lines ruff_issues) blank_line)) =
    Some {| kind := Some "E501";
            message := "Line too long (this comment is intentionally very very very very very very very very very very very very long)" |} /\
  map (long_lines 100) corpus = [[]; [(6, 118)]] /\
  map (long_lines 88) corpus = [[(41, 89)]; [(6, 118); (75, 96)]].
Proof. evaluated. Qed.

(** X18. Both files are laid out evenly: no line ends in a space or
    holds a tab, every indentation is a multiple of four, and every
    bracket is closed on its line, but for the display of
    [duplicate_dict], open from line 86 to line 88 and closed on the
    last line. *)
Theorem layout_is_even :
  map untidy_lines corpus = [[]; []] /\
  map open_lines corpus = [[]; [86; 87; 88]] /\
  map final_depth corpus = [0; 0].
Proof. evaluated. Qed.

(** X19. Spaces around the first equals sign of the lines 8, 10, 11 and
    12 of the linter's file, with the rule each line is marked with: the
    header of line 8 (E251, whitespace around parameter equals) has no
    equals sign; [a=1] (E225) has no space on either side; [b =2] (E221,
    multiple spaces before operator) has one space before; [c= 3] (E222,
    missing space after operator) has one space after. *)
Theorem spacing_of_marked_lines :
  map (fun e => (line e, kind (annotation e),
                 equals_spacing (code_at ruff_issues (line e))))
      (filter (fun e => Nat.leb 8 (line e) && Nat.leb (line e) 12)
              (violation_examples ruff_issues)) =
    [(8, Some "E251", None); (10, Some "E225", Some (0, 0));
     (11, Some "E221", Some (1, 0)); (12, Some "E222", Some (0, 1))].
Proof. evaluated. Qed.

(** X20. In the linter's file two names are assigned inside a function
    and stand nowhere else: [unused_var] on line 27, marked F841, and
    [name] on line 57, which has no comment. *)
Theorem unused_locals_of_linter_file :
  unused_locals ruff_issues = [(27, "unused_var"); (57, "name")] /\
  option_map parse_annotation
             (comment (nth 26 (source_lines ruff_issues) blank_line)) =
    Some {| kind := Some "F841";
            message := "Local variable is assigned but never used" |} /\
  comment (nth 56 (source_lines ruff_issues) blank_line) = None.
Proof. evaluated. Qed.

End CheckFacts.
